(** * Shallow embedding of bmpmod's mass-profile inference core

    Sources: [massmod/fit_temperature.py] (Tmodel_func, lnprior, lnprob,
    fit_mcmc) and [massmod/posterior_mcmc.py] (calc_rdelta_p,
    samples_results).

    Python floats are IEEE doubles: they are modelled by Rocq's primitive
    64-bit floats, so comparisons with NaN and the infinities behave as in
    the source.  Python exceptions are the [Err] branch of [result].
    Functions of modules that are not part of these sources (the mass and
    density models of [mass_models] / [density_models], [scipy.integrate.quad],
    [np.percentile], emcee's sampler) are parameters of the definitions
    that call them. *)

From Stdlib Require Import ZArith List Bool String Lia.
From Stdlib Require Import Floats QArith Lqa.
Import ListNotations.

Local Open Scope Z_scope.

(** ** Python runtime fragments *)

Inductive exn : Type :=
| TypeError
| ValueError
| NameError
| IndexError
| OverflowError.

Inductive result (A : Type) : Type :=
| Ok (a : A)
| Err (e : exn).
Arguments Ok {A} a.
Arguments Err {A} e.

Definition bind {A B} (m : result A) (k : A -> result B) : result B :=
  match m with
  | Ok a => k a
  | Err e => Err e
  end.

Notation "x <- m ;; k" := (bind m (fun x => k))
  (at level 61, m at next level, right associativity).

(** [l[i]] for a Python sequence: negative indices count from the end,
    anything out of range raises [IndexError]. *)
Definition py_index {A} (l : list A) (i : Z) : result A :=
  let j := if i <? 0 then Z.of_nat (List.length l) + i else i in
  if j <? 0 then Err IndexError
  else match nth_error l (Z.to_nat j) with
       | Some x => Ok x
       | None => Err IndexError
       end.

(** [l[b:]] for a Python sequence. *)
Definition py_slice_from {A} (l : list A) (b : Z) : list A :=
  let n := Z.of_nat (List.length l) in
  let j := if b <? 0 then Z.max 0 (n + b) else Z.min b n in
  skipn (Z.to_nat j) l.

(** [np.isfinite] on a float. *)
Definition np_isfinite (x : float) : bool := PrimFloat.is_finite x.

(** ** fit_temperature.py: lnprior and lnprob *)

(** The six keyword arguments of [lnprior] (defaults from [params]). *)
Record bounds : Type := mkBounds {
  c_boundmin : float;
  c_boundmax : float;
  rs_boundmin : float;
  rs_boundmax : float;
  normsersic_boundmin : float;
  normsersic_boundmax : float
}.

(** Python's chained comparison [lo < x < hi]. *)
Definition chain_lt (lo x hi : float) : bool :=
  PrimFloat.ltb lo x && PrimFloat.ltb x hi.

(** [lnprior(theta, ...)]: [None] is the implicit [return None] reached when
    [len(theta)] is neither 3 nor 2. *)
Definition lnprior (b : bounds) (theta : list float) : option float :=
  match theta with
  | [c; rs; normsersic] =>
      if chain_lt (c_boundmin b) c (c_boundmax b)
         && chain_lt (rs_boundmin b) rs (rs_boundmax b)
         && chain_lt (normsersic_boundmin b) normsersic (normsersic_boundmax b)
      then Some 0%float
      else Some neg_infinity
  | [c; rs] =>
      if chain_lt (c_boundmin b) c (c_boundmax b)
         && chain_lt (rs_boundmin b) rs (rs_boundmax b)
      then Some 0%float
      else Some neg_infinity
  | _ => None
  end.

(** [lnprob(theta, ...)].  The call [lnlike(theta, x, y, ...)] is the
    function [lnlike] of [theta] (its other arguments are fixed for a run);
    the second component counts how many times it was evaluated.
    [np.isfinite(None)] raises [TypeError]. *)
Definition lnprob (lnlike : list float -> float) (b : bounds)
    (theta : list float) : result float * nat :=
  match lnprior b theta with
  | None => (Err TypeError, 0%nat)
  | Some lp =>
      if negb (np_isfinite lp) then (Ok neg_infinity, 0%nat)
      else (Ok (PrimFloat.add lp (lnlike theta)), 1%nat)
  end.

(** The configured bound of each free parameter, in the order of [theta]. *)
Definition param_bounds (b : bounds) : list (float * float) :=
  [(c_boundmin b, c_boundmax b); (rs_boundmin b, rs_boundmax b);
   (normsersic_boundmin b, normsersic_boundmax b)].

(** Every component of [theta] lies strictly between the two ends of its
    bound (as an IEEE comparison, so a NaN component is not inside). *)
Definition all_in_open (bs : list (float * float)) (theta : list float) : bool :=
  forallb (fun '(x, (lo, hi)) => PrimFloat.ltb lo x && PrimFloat.ltb x hi)
    (combine theta bs).

(** ** Numbers of the posterior code

    [calc_rdelta_p], [Tmodel_func], [fit_mcmc] and [samples_results] only
    use Python's float operations below, so they are written over this
    interface.  [float_num] (IEEE doubles) is the instance the program
    runs with; [Q_num] (exact rationals) is the real-number reading of the
    same code. *)
Class PyFloat (F : Type) : Type := {
  fadd : F -> F -> F;
  fsub : F -> F -> F;
  fmul : F -> F -> F;
  fdiv : F -> F -> F;
  fpow : F -> F -> F;               (* x ** y *)
  fgt : F -> F -> bool;             (* x > y *)
  float_of_int : Z -> F;            (* float(n), and an int operand of +, *, ** *)
  int_of_float : F -> result Z;     (* int(x): truncation toward zero *)
  np_pi : F
}.

(** IEEE instance. *)
Definition float_of_Z (n : Z) : float :=
  SF2Prim (binary_normalize prec emax n 0 false).

(** [int(x)]: truncation toward zero; an infinity raises [OverflowError],
    NaN raises [ValueError]. *)
Definition float_int (x : float) : result Z :=
  match Prim2SF x with
  | S754_zero _ => Ok 0
  | S754_finite s m e =>
      let a := if 0 <=? e then Z.shiftl (Zpos m) e else Z.shiftr (Zpos m) (- e) in
      Ok (if s then - a else a)
  | S754_infinity _ => Err OverflowError
  | S754_nan => Err ValueError
  end.

(** [x ** k] for a natural [k], rounded once from the exact power. *)
Definition float_powN (x : float) (k : Z) : float :=
  match Prim2SF x with
  | S754_finite s m e =>
      let p := Z.pow (Zpos m) k in
      SF2Prim (binary_normalize prec emax
                 (if s && Z.odd k then - p else p) (k * e) false)
  | _ =>
      if Z.eqb k 0 then 1%float
      else if Z.odd k then x
      else PrimFloat.abs x
  end.

(** [x ** y] for the integral exponents the sources use ([2.], [3.], [-3.],
    [-4.]); a negative exponent is the reciprocal of the positive power. *)
Definition float_pow (x y : float) : float :=
  match float_int y with
  | Ok k => if 0 <=? k then float_powN x k else (1 / float_powN x (- k))%float
  | Err _ => nan
  end.

#[export] Instance float_num : PyFloat float := {
  fadd := PrimFloat.add;
  fsub := PrimFloat.sub;
  fmul := PrimFloat.mul;
  fdiv := PrimFloat.div;
  fpow := float_pow;
  fgt := fun x y => PrimFloat.ltb y x;
  float_of_int := float_of_Z;
  int_of_float := float_int;
  np_pi := 0x1.921fb54442d18p+1%float  (* np.pi *)
}.

(** Exact instance. *)
Fixpoint Qpow_nat (x : Q) (k : nat) : Q :=
  match k with
  | O => 1%Q
  | S k' => Qmult x (Qpow_nat x k')
  end.

Definition Q_pow (x y : Q) : Q :=
  let k := Z.quot (Qnum y) (Zpos (Qden y)) in
  if 0 <=? k then Qpow_nat x (Z.to_nat k) else Qinv (Qpow_nat x (Z.to_nat (- k))).

#[export] Instance Q_num : PyFloat Q := {
  fadd := Qplus;
  fsub := Qminus;
  fmul := Qmult;
  fdiv := Qdiv;
  fpow := Q_pow;
  fgt := fun x y => negb (Qle_bool x y);
  float_of_int := inject_Z;
  int_of_float := fun x => Ok (Z.quot (Qnum x) (Zpos (Qden x)));
  np_pi := Qmake 3141592653589793 1000000000000000
}.

(** ** Dictionaries of the pipeline *)

(** [clustermeta] (also passed as [cluster]). *)
Record clustermeta (F : Type) : Type := mkClustermeta {
  z : F;
  refindex : Z;
  incl_mstar : Z;
  incl_mgas : Z;
  count_mstar : Z
}.
Arguments mkClustermeta {F}.
Arguments z {F}. Arguments refindex {F}. Arguments incl_mstar {F}.
Arguments incl_mgas {F}. Arguments count_mstar {F}.

(** [nemodel], as output by [fit_density()]. *)
Record nemodel (F : Type) : Type := mkNemodel {
  ne_type : string;
  parvals : list F;
  nefit : list F
}.
Arguments mkNemodel {F}.
Arguments ne_type {F}. Arguments parvals {F}. Arguments nefit {F}.

(** ** posterior_mcmc.py: calc_rdelta_p *)

Section CalcRdelta.
Context {F : Type} `{PyFloat F}.

(** Functions of [mass_models] / [gen] and constants of [uconv] / [cosmo]. *)
Variable nfw_mass_model : F -> F -> F -> F -> F.           (* r c rs z *)
Variable sersic_mass_model : F -> F -> clustermeta F -> F. (* r normsersic cluster *)
Variable mgas_intmodel : F -> nemodel F -> F.
Variable quad : (F -> F) -> F -> F -> F.                   (* quad(f, a, b)[0] *)
Variable calc_rhocrit : F -> F.
Variable Msun : F.
Variable overdensity : F.

(** One evaluation of the enclosed masses and of the overdensity ratio at a
    trial radius, with the arguments handed to [scipy.integrate.quad]. *)
Record evaluation : Type := {
  ev_radius : F;
  ev_integrand : F -> F;
  ev_quad_lo : F;
  ev_quad_hi : F;
  ev_mass_nfw : F;
  ev_mass_dev : F;
  ev_mass_gas : F;
  ev_mass_tot : F;
  ev_ratio : F
}.

(** Lines 55-66 (and 75-86): [mass_dev] is the function of the radius
    that the [count_mstar] branch selects. *)
Definition evaluate (nm : nemodel F) (cluster : clustermeta F) (c rs : F)
    (mass_dev : F -> F) (r : F) : evaluation :=
  let mass_nfw := nfw_mass_model r c rs (z cluster) in
  let mdev := mass_dev r in
  let intfunc := fun x : F => mgas_intmodel r nm in
  let mass_gas := fmul (quad intfunc (float_of_int 0) r) Msun in
  let mass_tot := fadd (fadd mass_nfw mdev) mass_gas in
  let rho_crit := calc_rhocrit (z cluster) in
  let ratio :=
    fdiv (fdiv mass_tot
            (fmul (fmul (fdiv (float_of_int 4) (float_of_int 3)) np_pi)
                  (fpow r (float_of_int 3))))
         rho_crit in
  {| ev_radius := r; ev_integrand := intfunc;
     ev_quad_lo := float_of_int 0; ev_quad_hi := r;
     ev_mass_nfw := mass_nfw; ev_mass_dev := mdev; ev_mass_gas := mass_gas;
     ev_mass_tot := mass_tot; ev_ratio := ratio |}.

(** Lines 40-46 and 57-58: reading [normsersic] and choosing [mass_dev].
    With [count_mstar] neither 0 nor 1, [mass_dev] is never bound and
    line 63 raises [NameError]. *)
Definition mass_dev_fn (row : list F) (cluster : clustermeta F)
    : result (F -> F) :=
  if count_mstar cluster =? 1 then
    normsersic <- py_index row 2 ;;
    Ok (fun r => fmul (sersic_mass_model r normsersic cluster) Msun)
  else if count_mstar cluster =? 0 then Ok (fun _ => float_of_int 0)
  else Err NameError.

(** The [while ratio > cosmo.overdensity] loop of lines 71-86, run for at
    most [fuel] iterations: [None] means the loop is still running after
    them.  [trace] lists every evaluation made so far, in order. *)
Fixpoint search (eval : F -> evaluation) (fuel : nat) (rdelta_tot : Z)
    (ev : evaluation) (trace : list evaluation)
    : option (Z * evaluation * list evaluation) :=
  if fgt (ev_ratio ev) overdensity then
    match fuel with
    | O => None
    | S fuel' =>
        let rdelta_tot' := rdelta_tot + 1 in
        let ev' := eval (float_of_int rdelta_tot') in
        search eval fuel' rdelta_tot' ev' (trace ++ [ev'])
    end
  else Some (rdelta_tot, ev, trace).

(** The straight-line code before the loop (lines 40-70) that can raise:
    reading [c], [rs] (and [normsersic]), binding [mass_dev], and
    [int(rdelta_dm)].  The seed evaluation in between raises nothing. *)
Definition calc_rdelta_seed (row : list F) (cluster : clustermeta F)
    : result (F * F * (F -> F) * Z) :=
  c <- py_index row 0 ;;
  rs <- py_index row 1 ;;
  mass_dev <- mass_dev_fn row cluster ;;
  rdelta_tot <- int_of_float (fmul c rs) ;;
  Ok (c, rs, mass_dev, rdelta_tot).

(** [calc_rdelta_p(row, nemodel, cluster)]: the returned 5-tuple
    (rdelta, mdelta, mdm, mstars, mgas) and the evaluations made, the seed
    evaluation at [rdelta_dm = c*rs] first. *)
Definition calc_rdelta_p (fuel : nat) (row : list F) (nm : nemodel F)
    (cluster : clustermeta F)
    : option (result ((Z * F * F * F * F) * list evaluation)) :=
  match calc_rdelta_seed row cluster with
  | Err e => Some (Err e)
  | Ok (c, rs, mass_dev, rdelta_tot) =>
      let rdelta_dm := fmul c rs in
      let eval := evaluate nm cluster c rs mass_dev in
      let ev0 := eval rdelta_dm in
      match search eval fuel rdelta_tot ev0 [ev0] with
      | None => None
      | Some (rdelta, ev, trace) =>
          Some (Ok ((rdelta, fdiv (ev_mass_tot ev) Msun, fdiv (ev_mass_nfw ev) Msun,
                     fdiv (ev_mass_dev ev) Msun, fdiv (ev_mass_gas ev) Msun),
                    trace))
      end
  end.

End CalcRdelta.

(** ** fit_temperature.py: Tmodel_func *)

(** A row of [tspec_data] (the columns the code reads). *)
Record tspec_row (F : Type) : Type := mkTspecRow {
  radius : F;
  tspec : F;
  tspec_err : F
}.
Arguments mkTspecRow {F}.
Arguments radius {F}. Arguments tspec {F}. Arguments tspec_err {F}.

Section TmodelFunc.
Context {F : Type} `{PyFloat F}.

(** [intmodel(nemodel, rs, c, normsersic, r_arr, clustermeta)], the
    integrand of the temperature model, and [scipy.integrate.quad]. *)
Variable intmodel : nemodel F -> F -> F -> F -> F -> clustermeta F -> F.
Variable quad : (F -> F) -> F -> F -> F.                   (* quad(f, a, b)[0] *)
(** Constants of [params] and [uconv]. *)
Variables (mu mA G cm_m joule_kev Msun_kg kpc_m : F).

(** The [for rr in range(0, len(tspec_data))] loop of [Tmodel_func]
    (lines 141-170), from index [rr] on.  Besides [tfit_arr] it returns the
    log of the calls to [quad]: the index [rr] and the two bounds. *)
Fixpoint Tmodel_loop (tspec_data : list (tspec_row F)) (nm : nemodel F)
    (cl : clustermeta F) (c rs normsersic ne_ref tspec_ref radius_ref : F)
    (rrs : list Z) (tfit_arr : list F) (calls : list (Z * F * F))
    : result (list F * list (Z * F * F)) :=
  match rrs with
  | [] => Ok (tfit_arr, calls)
  | rr :: rest =>
      if rr =? refindex cl then
        t <- py_index (map tspec tspec_data) rr ;;
        Tmodel_loop tspec_data nm cl c rs normsersic ne_ref tspec_ref radius_ref
          rest (tfit_arr ++ [t]) calls
      else
        radius_selected <- py_index (map radius tspec_data) rr ;;
        ne_selected <- py_index (nefit nm) rr ;;
        let intfunc := fun x => intmodel nm rs c normsersic x cl in
        let finfac_t :=
          fdiv (fmul (fmul mu mA) G)
               (fmul ne_selected (fpow cm_m (float_of_int (-3)))) in
        let tfit_r :=
          fsub (fdiv (fmul tspec_ref ne_ref) ne_selected)
               (fmul (fmul (fmul (fmul joule_kev finfac_t)
                                 (fpow Msun_kg (float_of_int 2)))
                           (fpow kpc_m (float_of_int (-4))))
                     (quad intfunc radius_ref radius_selected)) in
        Tmodel_loop tspec_data nm cl c rs normsersic ne_ref tspec_ref radius_ref
          rest (tfit_arr ++ [tfit_r]) (calls ++ [(rr, radius_ref, radius_selected)])
  end.

(** [Tmodel_func(ne_data, tspec_data, nemodel, clustermeta, c, rs,
    normsersic)]; [ne_data] is not read by the body and is left out. *)
Definition Tmodel_func (tspec_data : list (tspec_row F)) (nm : nemodel F)
    (cl : clustermeta F) (c rs normsersic : F)
    : result (list F * list (Z * F * F)) :=
  ne_ref <- py_index (nefit nm) (refindex cl) ;;
  tspec_ref <- py_index (map tspec tspec_data) (refindex cl) ;;
  radius_ref <- py_index (map radius tspec_data) (refindex cl) ;;
  Tmodel_loop tspec_data nm cl c rs normsersic ne_ref tspec_ref radius_ref
    (map Z.of_nat (seq 0 (List.length tspec_data))) [] [].

End TmodelFunc.

(** ** fit_temperature.py: fit_mcmc *)

Section FitMcmc.
Context {F : Type}.

(** [sampler.chain] after [sampler.sample(pos, iterations=Nsteps)] has run
    with [nwalkers] walkers in [ndim] dimensions: one list of steps per
    walker, one vector per step.  The starting positions drawn around
    [ml_results] and the log-posterior are emcee's inputs; they are folded
    into this parameter. *)
Variable emcee_chain : Z -> Z -> Z -> list (list (list F)).  (* nwalkers ndim Nsteps *)

(** Lines 405-409: with [incl_mstar] neither 1 nor 0, [ndim] is never
    bound and its first use raises [NameError]. *)
Definition fit_mcmc_ndim (clustermeta : clustermeta F) : result Z :=
  if incl_mstar clustermeta =? 1 then Ok 3
  else if incl_mstar clustermeta =? 0 then Ok 2
  else Err NameError.

(** [fit_mcmc(...)]: returns [samples, sampler], the sampler as its chain.
    [sampler.chain[:, Nburnin:, :].reshape((-1, ndim))] drops the first
    [Nburnin] steps of each walker and lists the remaining steps walker by
    walker (row-major order).  The progress printing and the [acor] probe
    raise nothing. *)
Definition fit_mcmc (clustermeta : clustermeta F) (Nwalkers Nsteps Nburnin : Z)
    : result (list (list F) * list (list (list F))) :=
  ndim <- fit_mcmc_ndim clustermeta ;;
  let chain := emcee_chain Nwalkers ndim Nsteps in
  let samples := List.concat (map (fun walker => py_slice_from walker Nburnin) chain) in
  Ok (samples, chain).

End FitMcmc.

(** Shape of an emcee chain: [nwalkers] walkers of [nsteps] steps, each a
    vector of [ndim] numbers. *)
Definition chain_shape {F} (chain : list (list (list F))) (nwalkers nsteps ndim : Z)
    : Prop :=
  List.length chain = Z.to_nat nwalkers /\
  Forall (fun walker => List.length walker = Z.to_nat nsteps /\
                        Forall (fun v => List.length v = Z.to_nat ndim) walker) chain.

(** ** posterior_mcmc.py: samples_results *)

Section SamplesResults.
Context {F : Type} `{PyFloat F}.

(** [np.percentile(a, q)] of a one-dimensional array (numpy's default
    method, linear interpolation between order statistics). *)
Variable percentile : list F -> Z -> F.

(** Column [j] of a two-dimensional array given as its list of rows. *)
Definition column (rows : list (list F)) (j : nat) : list F :=
  map (fun row => nth j row (float_of_int 0)) rows.

Definition columns (rows : list (list F)) : list (list F) :=
  match rows with
  | [] => []
  | row :: _ => map (column rows) (seq 0 (List.length row))
  end.

(** [lambda v: (v[1], v[2]-v[1], v[1]-v[0])] applied to one column's
    [(P16, P50, P84)]. *)
Definition summary (col : list F) : F * F * F :=
  let p16 := percentile col 16 in
  let p50 := percentile col 50 in
  let p84 := percentile col 84 in
  (p50, fsub p84 p50, fsub p50 p16).

(** [map(lambda v: ..., zip( *P))] with [P = np.percentile(a, [16, 50, 84], axis=0)]:
    one triple per column of a non-empty rectangular array. *)
Definition summaries (rows : list (list F)) : list (F * F * F) :=
  map summary (columns rows).

(** [samples_results(samples, samples_aux, cluster)]: the dictionary as the
    list of its entries in insertion order.  Unpacking a list of the wrong
    length raises [ValueError]; with [count_mstar] neither 1 nor 0,
    [c_mcmc] is unbound when it is printed ([NameError]). *)
Definition samples_results (samples samples_aux : list (list F))
    (cluster : clustermeta F) : result (list (string * (F * F * F))) :=
  params <-
    (if count_mstar cluster =? 1 then
       match summaries samples with
       | [c_mcmc; rs_mcmc; normsersic_mcmc] => Ok (Some (c_mcmc, rs_mcmc, Some normsersic_mcmc))
       | _ => Err ValueError
       end
     else if count_mstar cluster =? 0 then
       match summaries samples with
       | [c_mcmc; rs_mcmc] => Ok (Some (c_mcmc, rs_mcmc, None))
       | _ => Err ValueError
       end
     else Ok None) ;;
  match summaries samples_aux with
  | [rdelta_mcmc; mdelta_mcmc; mdm_mcmc; mstars_mcmc; mgas_mcmc] =>
      match params with
      | None => Err NameError
      | Some (c_mcmc, rs_mcmc, normsersic_mcmc) =>
          let base := [("c"%string, c_mcmc); ("rs"%string, rs_mcmc); ("rdelta"%string, rdelta_mcmc);
                       ("mdelta"%string, mdelta_mcmc); ("mdm"%string, mdm_mcmc); ("mgas"%string, mgas_mcmc)] in
          if count_mstar cluster =? 1 then
            match normsersic_mcmc with
            | Some n => Ok (base ++ [("normsersic"%string, n); ("mstars"%string, mstars_mcmc)])
            | None => Ok base
            end
          else Ok base
      end
  | _ => Err ValueError
  end.

End SamplesResults.

(** ** fit_temperature.py: intmodel *)

Section Intmodel.
Context {F : Type} `{PyFloat F}.

(** The mass and density models of [mass_models] / [density_models] and the
    constants [uconv.Msun], [uconv.cm_kpc]. *)
Variable nfw_mass_model : F -> F -> F -> F -> F.           (* r c rs z *)
Variable sersic_mass_model : F -> F -> clustermeta F -> F. (* r normsersic cluster *)
Variable gas_mass_model : F -> nemodel F -> F.             (* r nemodel *)
Variables (betamodel cuspedbetamodel doublebetamodel doublebetamodel_tied :
             list F -> F -> F).                            (* parvals r *)
Variables (Msun cm_kpc : F).

(** [intmodel(nemodel, rs, c, normsersic, r_arr, clustermeta)] (lines
    31-85) at one radius; [None] is the implicit [return None] reached
    when [nemodel['type']] is none of the four density models. *)
Definition intmodel (nm : nemodel F) (rs c normsersic r_arr : F)
    (clustermeta : clustermeta F) : option F :=
  let Mtot := nfw_mass_model r_arr c rs (z clustermeta) in
  let Mtot := if incl_mstar clustermeta =? 1
              then fadd Mtot (sersic_mass_model r_arr normsersic clustermeta)
              else Mtot in
  let Mtot := if incl_mgas clustermeta =? 1
              then fadd Mtot (gas_mass_model r_arr nm)
              else Mtot in
  let integrand (dens : F) :=
    fdiv (fmul (fmul (fmul dens (fdiv (float_of_int 1) Msun))
                     (fpow cm_kpc (float_of_int (-3))))
               Mtot)
         (fpow r_arr (float_of_int 2)) in
  if String.eqb (ne_type nm) "single_beta" then
    Some (integrand (betamodel (parvals nm) r_arr))
  else if String.eqb (ne_type nm) "cusped_beta" then
    Some (integrand (cuspedbetamodel (parvals nm) r_arr))
  else if String.eqb (ne_type nm) "double_beta" then
    Some (integrand (doublebetamodel (parvals nm) r_arr))
  else if String.eqb (ne_type nm) "double_beta_tied" then
    Some (integrand (doublebetamodel_tied (parvals nm) r_arr))
  else None.

End Intmodel.

(** ** fit_temperature.py: lnlike *)

(** A numpy binary operation between two one-dimensional arrays:
    elementwise for equal lengths, a length-1 operand is broadcast, other
    shapes raise [ValueError]. *)
Definition np_binop {F} (f : F -> F -> F) (a b : list F) : result (list F) :=
  if Nat.eqb (List.length a) (List.length b) then
    Ok (map (fun '(x, y) => f x y) (combine a b))
  else match a, b with
       | [x], _ => Ok (map (f x) b)
       | _, [y] => Ok (map (fun x => f x y) a)
       | _, _ => Err ValueError
       end.

Section Lnlike.
Context {F : Type} `{PyFloat F}.

Variable intmodel : nemodel F -> F -> F -> F -> F -> clustermeta F -> F.
Variable quad : (F -> F) -> F -> F -> F.
Variables (mu mA G cm_m joule_kev Msun_kg kpc_m : F).
(** [np.log] and [np.sum] on one-dimensional arrays. *)
Variable np_log : F -> F.
Variable np_sum : list F -> F.

(** Lines 215-219: [c, rs, normsersic = theta] or [c, rs = theta]; a
    length mismatch raises [ValueError]; with [incl_mstar] neither 1 nor 0,
    [c] is unbound when [Tmodel_func] is called ([NameError]). *)
Definition unpack_theta (clustermeta : clustermeta F) (theta : list F)
    : result (F * F * F) :=
  if incl_mstar clustermeta =? 1 then
    match theta with
    | [c; rs; normsersic] => Ok (c, rs, normsersic)
    | _ => Err ValueError
    end
  else if incl_mstar clustermeta =? 0 then
    match theta with
    | [c; rs] => Ok (c, rs, float_of_int 0)
    | _ => Err ValueError
    end
  else Err NameError.

(** [lnlike(theta, x, y, yerr, ne_data, tspec_data, nemodel, clustermeta)];
    [x] and [ne_data] are not read by the body and are left out.  The
    constant [-0.5] is [-1/2], exact in both instances. *)
Definition lnlike (theta y yerr : list F) (tspec_data : list (tspec_row F))
    (nm : nemodel F) (clustermeta : clustermeta F) : result F :=
  params <- unpack_theta clustermeta theta ;;
  let '(c, rs, normsersic) := params in
  tfit <- Tmodel_func intmodel quad mu mA G cm_m joule_kev Msun_kg kpc_m
            tspec_data nm clustermeta c rs normsersic ;;
  let model := fst tfit in
  diff <- np_binop fsub y model ;;
  let yerr2 := map (fun e => fpow e (float_of_int 2)) yerr in
  chi <- np_binop fdiv (map (fun d => fpow d (float_of_int 2)) diff) yerr2 ;;
  let lognorm :=
    map np_log (map (fmul (fmul (float_of_int 2) np_pi)) yerr2) in
  terms <- np_binop fadd chi lognorm ;;
  Ok (fmul (fdiv (float_of_int (-1)) (float_of_int 2)) (np_sum terms)).

End Lnlike.

(** The exact sum, [np.sum] in the real-number reading. *)
Definition Qsum (l : list Q) : Q := fold_right Qplus 0%Q l.

(** ** fit_temperature.py: fit_ml *)


(** ** posterior_mcmc.py: calc_posterior_mcmc *)

Section CalcPosterior.
Context {F : Type} `{PyFloat F}.
Variable nfw_mass_model : F -> F -> F -> F -> F.
Variable sersic_mass_model : F -> F -> clustermeta F -> F.
Variable mgas_intmodel : F -> nemodel F -> F.
Variable quad : (F -> F) -> F -> F -> F.
Variable calc_rhocrit : F -> F.
Variable Msun : F.
Variable overdensity : F.

(** The row of [samples_aux] built from the tuple [calc_rdelta_p] returns
    ([np.array] turns the integer rdelta into a float). *)
Definition aux_row (out : Z * F * F * F * F) : list F :=
  let '(rdelta, mdelta, mdm, mstars, mgas) := out in
  [float_of_int rdelta; mdelta; mdm; mstars; mgas].

(** [calc_posterior_mcmc(samples, nemodel, cluster, Ncores)]: [joblib]
    returns the results in the order of [samples]; a failing row's
    exception is raised, the rows taken in order as with [Ncores = 1];
    [None] when a row's search is still running after [fuel] iterations. *)
Fixpoint calc_posterior_mcmc (fuel : nat) (samples : list (list F)) (nm : nemodel F)
    (cluster : clustermeta F) : option (result (list (list F))) :=
  match samples with
  | [] => Some (Ok [])
  | row :: rest =>
      match calc_rdelta_p nfw_mass_model sersic_mass_model mgas_intmodel quad
              calc_rhocrit Msun overdensity fuel row nm cluster with
      | None => None
      | Some (Err e) => Some (Err e)
      | Some (Ok (out, _)) =>
          match calc_posterior_mcmc fuel rest nm cluster with
          | None => None
          | Some (Err e) => Some (Err e)
          | Some (Ok aux) => Some (Ok (aux_row out :: aux))
          end
      end
  end.

(** Sample [row] gives the row [arow] of [samples_aux]: its
    [calc_rdelta_p] returns, and [arow] is built from the returned tuple. *)
Definition aux_of (fuel : nat) (nm : nemodel F) (cl : clustermeta F)
    (row arow : list F) : Prop :=
  exists out trace,
    calc_rdelta_p nfw_mass_model sersic_mass_model mgas_intmodel quad calc_rhocrit Msun
      overdensity fuel row nm cl = Some (Ok (out, trace)) /\ arow = aux_row out.

End CalcPosterior.

(** ** Concrete inputs used by the tests, witnesses and counterexamples *)

Module Inputs.
Definition nm0 : nemodel float := mkNemodel "single_beta" [] [].
(** [count_mstar = 0]: no stellar term. *)
Definition cl0 : clustermeta float := mkClustermeta 0.5%float (-1) 1 1 0.
Definition nfw_const (r c rs z : float) : float := 40000%float.
Definition sersic0 (r n : float) (cl : clustermeta float) : float := 0%float.
Definition mgas0 (r : float) (nm : nemodel float) : float := 0%float.
(** A gas integrand growing as r^2 (uniform gas density). *)
Definition mgas_sq (r : float) (nm : nemodel float) : float := (r * r)%float.
(** Midpoint rule: exact on the constant integrands built by the code. *)
Definition quad_mid (f : float -> float) (a b : float) : float :=
  ((b - a) * f ((a + b) / 2))%float.
Definition rho1 (z : float) : float := 1%float.
Definition nfw_small (r c rs z : float) : float := 1000%float.

(** Exact-arithmetic input whose ratio is the same at every radius: no
    dark-matter term, a uniform gas density whose integrand grows as
    r^2, and rho_crit = 1/10000. *)
Definition nmq : nemodel Q := mkNemodel "single_beta" [] [].
Definition clq : clustermeta Q := mkClustermeta 0%Q (-1) 0 1 0.
Definition nfw0q (r c rs z : Q) : Q := 0%Q.
Definition sersic0q (r n : Q) (cl : clustermeta Q) : Q := 0%Q.
Definition mgas_sq_q (r : Q) (nm : nemodel Q) : Q := (r * r)%Q.
Definition quad_mid_q (f : Q -> Q) (a b : Q) : Q := ((b - a) * f ((a + b) / 2))%Q.
Definition rhoq (z : Q) : Q := (1 # 10000)%Q.
Definition rowq : list Q := [100%Q; 1%Q].

(** Two temperature bins, the reference bin last ([refindex = -1] as in
    [example.py]): 5 keV at 1 kpc and 3.7 keV at 2 kpc, with electron
    densities 0.02 and 0.01 cm^-3. *)
Definition tspec_t : list (tspec_row float) :=
  [mkTspecRow 1%float 5%float 0.5%float;
   mkTspecRow 2%float 0x1.d99999999999ap+1%float 0.5%float].
Definition nm_t : nemodel float :=
  mkNemodel "single_beta" [] [0x1.47ae147ae147bp-6%float; 0x1.47ae147ae147bp-7%float].
Definition intmodel_r (nm : nemodel float) (rs c normsersic r : float)
    (cl : clustermeta float) : float := r.

(** A chain of the shape emcee produces, every coordinate 0.5. *)
Definition chain_ex (nwalkers ndim nsteps : Z) : list (list (list float)) :=
  repeat (repeat (repeat 0.5%float (Z.to_nat ndim)) (Z.to_nat nsteps)) (Z.to_nat nwalkers).
(** A stand-in for [np.percentile]: the first value. *)
Definition percentile_first (col : list float) (q : Z) : float := nth 0 col 0%float.
(** The first bin as reference ([refindex = 0]). *)
Definition cl_ref0 : clustermeta float := mkClustermeta 0.5%float 0 1 1 0.

(** One exact-arithmetic bin at 1 kpc observed at 2 keV, and model
    functions that are identically zero. *)
Definition tspec_q : list (tspec_row Q) := [mkTspecRow 1%Q 2%Q (1 # 2)%Q].
Definition nm_q1 : nemodel Q := mkNemodel "single_beta" [] [(1 # 50)%Q].
Definition cl_q0 : clustermeta Q := mkClustermeta 0%Q 0 0 0 0.
Definition intmodel_q0 (nm : nemodel Q) (rs c normsersic r : Q)
    (cl : clustermeta Q) : Q := 0%Q.
Definition quad_q0 (f : Q -> Q) (a b : Q) : Q := 0%Q.
End Inputs.

(** * Theorems *)

Lemma zero_neq_neg_infinity : 0%float <> neg_infinity.
Proof. intro H. discriminate (f_equal (fun x => PrimFloat.eqb x 0%float) H). Qed.

Ltac split_bools :=
  repeat match goal with
  | |- context [PrimFloat.ltb ?x ?y] => destruct (PrimFloat.ltb x y)
  end.

(** Claim C2 (amended).  For a [theta] of length 2 or 3, [lnprior] returns
    0 exactly when every component lies strictly inside the OPEN interval
    (min, max) of its bound, and negative infinity exactly when some
    component does not (a component equal to either end, or NaN). *)
Theorem lnprior_open_interval (b : bounds) (theta : list float)
    (Hlen : List.length theta = 2%nat \/ List.length theta = 3%nat) :
  (lnprior b theta = Some 0%float <-> all_in_open (param_bounds b) theta = true) /\
  (lnprior b theta = Some neg_infinity <-> all_in_open (param_bounds b) theta = false).
Proof.
  pose proof zero_neq_neg_infinity as Hne.
  destruct theta as [|c [|rs [|n [|x rest]]]]; simpl in Hlen; try lia;
    destruct b; unfold lnprior, all_in_open, param_bounds, chain_lt; simpl;
    split_bools; simpl; split; split; intro H;
    try reflexivity; try discriminate;
    try (injection H as H; exfalso; apply Hne; congruence).
Qed.

(** Claim C2 (counterexample).  With bounds [1, 10) for every parameter,
    [theta = [1; 2]] has its concentration equal to the lower bound, yet
    [lnprior] returns negative infinity, not 0. *)
Lemma lnprior_lower_bound_rejected :
  lnprior (mkBounds 1 10 1 10 1 10) [1%float; 2%float] = Some neg_infinity /\
  neg_infinity <> 0%float.
Proof.
  split; [vm_compute; reflexivity |].
  intro H; apply zero_neq_neg_infinity; symmetry; exact H.
Qed.

(** Witness for [lnprior_open_interval] on a three-parameter [theta]. *)
Lemma lnprior_open_interval_witness :
  List.length [2%float; 3%float; 4%float] = 3%nat /\
  (lnprior (mkBounds 1 10 1 10 1 10) [2%float; 3%float; 4%float] = Some 0%float).
Proof.
  split; [reflexivity |].
  apply (proj1 (lnprior_open_interval (mkBounds 1 10 1 10 1 10)
                  [2%float; 3%float; 4%float] (or_intror eq_refl))).
  vm_compute. reflexivity.
Defined.

(** Claim C5.  Whatever the likelihood function: when [lnprior theta] is
    negative infinity, [lnprob theta] is negative infinity and the
    likelihood is evaluated zero times; when [lnprior theta] is a finite
    [lp], [lnprob theta] is [lp + lnlike theta], the likelihood being
    evaluated once. *)
Theorem lnprob_short_circuit (lnlike : list float -> float) (b : bounds)
    (theta : list float) :
  (lnprior b theta = Some neg_infinity ->
   lnprob lnlike b theta = (Ok neg_infinity, 0%nat)) /\
  (forall lp, lnprior b theta = Some lp -> np_isfinite lp = true ->
   lnprob lnlike b theta = (Ok (PrimFloat.add lp (lnlike theta)), 1%nat)).
Proof.
  unfold lnprob; split.
  - intros H; rewrite H; reflexivity.
  - intros lp H Hfin; rewrite H, Hfin; reflexivity.
Qed.

(** Witness for [lnprob_short_circuit]: an out-of-bounds [theta] with a
    likelihood stub returning 5. *)
Lemma lnprob_short_circuit_witness :
  lnprior (mkBounds 1 10 1 10 1 10) [0%float; 2%float] = Some neg_infinity /\
  lnprob (fun _ => 5%float) (mkBounds 1 10 1 10 1 10) [0%float; 2%float]
    = (Ok neg_infinity, 0%nat).
Proof.
  split; [vm_compute; reflexivity |].
  apply (proj1 (lnprob_short_circuit (fun _ => 5%float) (mkBounds 1 10 1 10 1 10)
                  [0%float; 2%float])).
  vm_compute; reflexivity.
Defined.

(** Claim C10 (amended).  For a [theta] whose length is neither 2 nor 3,
    [lnprior] raises nothing and returns [None]; its caller [lnprob] then
    raises [TypeError] at [np.isfinite(None)], whatever the likelihood,
    without evaluating it. *)
Theorem lnprior_other_length_none (b : bounds) (theta : list float)
    (H2 : List.length theta <> 2%nat) (H3 : List.length theta <> 3%nat) :
  lnprior b theta = None /\
  (forall lnlike : list float -> float, lnprob lnlike b theta = (Err TypeError, 0%nat)).
Proof.
  assert (Hn : lnprior b theta = None)
    by (destruct theta as [|c [|rs [|n [|x rest]]]]; simpl in *;
        first [reflexivity | congruence]).
  split; [exact Hn|].
  intro lnlike. unfold lnprob. rewrite Hn. reflexivity.
Qed.

Lemma lnprior_other_length_none_witness :
  lnprior (mkBounds 1 10 1 10 1 10) [2%float] = None /\
  (forall lnlike : list float -> float,
     lnprob lnlike (mkBounds 1 10 1 10 1 10) [2%float] = (Err TypeError, 0%nat)).
Proof.
  apply (lnprior_other_length_none (mkBounds 1 10 1 10 1 10) [2%float]);
    simpl; lia.
Defined.

(** Claim C10 (counterexample).  A four-component [theta] is not reported
    as an error by [lnprior]: it returns [None]. *)
Lemma lnprior_four_params_returns_none :
  lnprior (mkBounds 1 10 1 10 1 10) [2%float; 3%float; 4%float; 5%float] = None.
Proof. reflexivity. Qed.

(** ** Tests of the embedding on small inputs *)

Example calc_rdelta_p_run :
  match calc_rdelta_p Inputs.nfw_const Inputs.sersic0 Inputs.mgas0 Inputs.quad_mid
          Inputs.rho1 1%float 500%float 5 [2.5%float; 1%float] Inputs.nm0 Inputs.cl0 with
  | Some (Ok ((rd, _, _, _, _), tr)) => (rd, map ev_radius tr)
  | _ => (0, [])
  end = (3, [2.5%float; 3%float]).
Proof. vm_compute. reflexivity. Qed.

(** ** calc_rdelta_p: the radius search *)

Section CalcRdeltaFacts.
Context {F : Type} `{PyFloat F}.
Variable nfw_mass_model : F -> F -> F -> F -> F.
Variable sersic_mass_model : F -> F -> clustermeta F -> F.
Variable mgas_intmodel : F -> nemodel F -> F.
Variable quad : (F -> F) -> F -> F -> F.
Variable calc_rhocrit : F -> F.
Variable Msun : F.
Variable overdensity : F.

Lemma map_seq_shift (f : Z -> @evaluation F) (rd : Z) (k : nat) :
  map (fun i => f (rd + Z.of_nat i)) (seq 2 k)
  = map (fun i => f (rd + 1 + Z.of_nat i)) (seq 1 k).
Proof.
  rewrite <- seq_shift, map_map.
  apply map_ext; intro i; f_equal; lia.
Qed.

(** The loop ends at the first evaluation whose ratio is not above the
    target; the radii tried after [rd] are [rd+1], ..., [rd+k]. *)
Lemma search_spec (eval : F -> @evaluation F) (fuel : nat) :
  forall rd ev pre res,
  search overdensity eval fuel rd ev (pre ++ [ev]) = Some res ->
  Forall (fun e => fgt (ev_ratio e) overdensity = true) pre ->
  exists k pre' ev',
    res = (rd + Z.of_nat k, ev', pre' ++ [ev']) /\
    pre' ++ [ev'] =
      pre ++ ev :: map (fun i => eval (float_of_int (rd + Z.of_nat i))) (seq 1 k) /\
    Forall (fun e => fgt (ev_ratio e) overdensity = true) pre' /\
    fgt (ev_ratio ev') overdensity = false.
Proof.
  induction fuel as [|fuel IH]; intros rd ev pre res Hs Hpre; simpl in Hs;
    destruct (fgt (ev_ratio ev) overdensity) eqn:Hg.
  - discriminate.
  - injection Hs as <-. exists O, pre, ev.
    rewrite Z.add_0_r. repeat split; auto.
  - destruct (IH (rd + 1) (eval (float_of_int (rd + 1))) (pre ++ [ev]) res Hs)
      as (k & pre' & ev' & Hres & Htr & Hall & Hlast).
    + apply Forall_app; auto.
    + exists (S k), pre', ev'. split; [|split; [|split]]; auto.
      * rewrite Hres; f_equal; f_equal; lia.
      * rewrite Htr, <- app_assoc; simpl; f_equal; f_equal.
        f_equal; exact (eq_sym (map_seq_shift (fun w => eval (float_of_int w)) rd k)).
  - injection Hs as <-. exists O, pre, ev.
    rewrite Z.add_0_r. repeat split; auto.
Qed.

Lemma calc_rdelta_seed_ok (row : list F) (cluster : clustermeta F) c rs md rd0 :
  calc_rdelta_seed sersic_mass_model Msun row cluster = Ok (c, rs, md, rd0) ->
  py_index row 0 = Ok c /\ py_index row 1 = Ok rs /\
  mass_dev_fn sersic_mass_model Msun row cluster = Ok md /\
  int_of_float (fmul c rs) = Ok rd0.
Proof.
  unfold calc_rdelta_seed, bind.
  destruct (py_index row 0) as [c'|]; [|discriminate].
  destruct (py_index row 1) as [rs'|]; [|discriminate].
  destruct (mass_dev_fn sersic_mass_model Msun row cluster) as [md'|]; [|discriminate].
  destruct (int_of_float (fmul c' rs')) as [rd'|] eqn:E; [|discriminate].
  intro Heq; injection Heq as <- <- <- <-; auto.
Qed.

(** Claim C3 (amended).  When [calc_rdelta_p] returns, it has evaluated the
    enclosed masses and the ratio first at the seed [c*rs], then at the
    integer radii [int(c*rs)+1], ..., [int(c*rs)+k] (int truncating toward
    zero), one per iteration; every ratio but the last is above the target
    and the last one is not; the returned rdelta is [int(c*rs)+k] and the
    returned masses are those of the last evaluation. *)
Theorem calc_rdelta_p_search (fuel : nat) (row : list F) (nm : nemodel F)
    (cluster : clustermeta F) out trace
    (Hrun : calc_rdelta_p nfw_mass_model sersic_mass_model mgas_intmodel quad
              calc_rhocrit Msun overdensity fuel row nm cluster
            = Some (Ok (out, trace))) :
  exists c rs mass_dev rd0 k pre ev,
    py_index row 0 = Ok c /\ py_index row 1 = Ok rs /\
    int_of_float (fmul c rs) = Ok rd0 /\
    trace = map (evaluate nfw_mass_model mgas_intmodel quad calc_rhocrit Msun
                   nm cluster c rs mass_dev)
              (fmul c rs :: map (fun i => float_of_int (rd0 + Z.of_nat i)) (seq 1 k)) /\
    trace = pre ++ [ev] /\
    Forall (fun e => fgt (ev_ratio e) overdensity = true) pre /\
    fgt (ev_ratio ev) overdensity = false /\
    out = (rd0 + Z.of_nat k, fdiv (ev_mass_tot ev) Msun, fdiv (ev_mass_nfw ev) Msun,
           fdiv (ev_mass_dev ev) Msun, fdiv (ev_mass_gas ev) Msun).
Proof.
  unfold calc_rdelta_p in Hrun.
  destruct (calc_rdelta_seed sersic_mass_model Msun row cluster)
    as [[[[c rs] md] rd0]|e] eqn:Hseed; [|discriminate].
  apply calc_rdelta_seed_ok in Hseed as (H0 & H1 & _ & Hint).
  set (eval := evaluate nfw_mass_model mgas_intmodel quad calc_rhocrit Msun nm
                 cluster c rs md) in Hrun.
  destruct (search overdensity eval fuel rd0 (eval (fmul c rs)) [eval (fmul c rs)])
    as [[[rd ev] tr]|] eqn:Hs; [|discriminate].
  injection Hrun as <- <-.
  destruct (search_spec eval fuel rd0 (eval (fmul c rs)) [] _ Hs (Forall_nil _))
    as (k & pre & ev' & Hres & Htr & Hall & Hlast).
  injection Hres as -> -> ->.
  exists c, rs, md, rd0, k, pre, ev'.
  repeat split; auto.
  rewrite Htr; simpl; f_equal; rewrite map_map; reflexivity.
Qed.

End CalcRdeltaFacts.

(** Witness for [calc_rdelta_p_search]: the run of [calc_rdelta_p_run]. *)
Lemma calc_rdelta_p_search_witness :
  exists out trace,
    calc_rdelta_p Inputs.nfw_const Inputs.sersic0 Inputs.mgas0 Inputs.quad_mid
      Inputs.rho1 1%float 500%float 5 [2.5%float; 1%float] Inputs.nm0 Inputs.cl0
    = Some (Ok (out, trace)) /\
    exists (c rs : float) (rd0 : Z) (k : nat) pre ev,
      int_of_float (fmul c rs) = Ok rd0 /\ trace = pre ++ [ev] /\
      fst (fst (fst (fst out))) = rd0 + Z.of_nat k.
Proof.
  destruct (calc_rdelta_p Inputs.nfw_const Inputs.sersic0 Inputs.mgas0 Inputs.quad_mid
      Inputs.rho1 1%float 500%float 5 [2.5%float; 1%float] Inputs.nm0 Inputs.cl0)
    as [[[out trace]|e]|] eqn:E; try (vm_compute in E; discriminate).
  exists out, trace; split; [reflexivity |].
  destruct (calc_rdelta_p_search Inputs.nfw_const Inputs.sersic0 Inputs.mgas0
              Inputs.quad_mid Inputs.rho1 1%float 500%float 5
              [2.5%float; 1%float] Inputs.nm0 Inputs.cl0 out trace E)
    as (c & rs & md & rd0 & k & pre & ev & _ & _ & Hi & _ & Htr & _ & _ & Hout).
  exists c, rs, rd0, k, pre, ev.
  split; [exact Hi | split; [exact Htr | rewrite Hout; reflexivity]].
Defined.

(** Claim C3 (counterexample).  With [c = 2.5], [rs = 1], the radius search
    does not step by 1 from the seed: when the seed ratio is above the
    target, the radii evaluated are 2.5 then 3 (a step of 0.5); when the
    seed ratio is already below it, rdelta is 2 although the only radius
    evaluated is 2.5. *)
Lemma calc_rdelta_p_not_seed_plus_one :
  match calc_rdelta_p Inputs.nfw_const Inputs.sersic0 Inputs.mgas0 Inputs.quad_mid
          Inputs.rho1 1%float 500%float 5 [2.5%float; 1%float] Inputs.nm0 Inputs.cl0 with
  | Some (Ok ((rd, _, _, _, _), tr)) =>
      map ev_radius tr = [2.5%float; 3%float] /\ rd = 3 /\
      PrimFloat.eqb (2.5 + 1)%float 3%float = false
  | _ => False
  end /\
  match calc_rdelta_p Inputs.nfw_small Inputs.sersic0 Inputs.mgas0 Inputs.quad_mid
          Inputs.rho1 1%float 500%float 5 [2.5%float; 1%float] Inputs.nm0 Inputs.cl0 with
  | Some (Ok ((rd, _, _, _, _), tr)) =>
      map ev_radius tr = [2.5%float] /\ rd = 2
  | _ => False
  end.
Proof. vm_compute. repeat split; reflexivity. Qed.

(** Claim C4 (code_bug).  The function [calc_rdelta_p] hands to [quad] is
    [lambda x: mgas_intmodel(rdelta, nemodel)], constant in [x].  With the
    integrand [mgas_intmodel(r) = r^2] and [c*rs = 2.5], the first
    quadrature call integrates over (0, 2.5) a function whose value at
    [x = 1] is [mgas_intmodel(2.5) = 6.25], not [mgas_intmodel(1) = 1]. *)
Theorem calc_rdelta_p_gas_integrand_constant :
  match calc_rdelta_p Inputs.nfw_const Inputs.sersic0 Inputs.mgas_sq Inputs.quad_mid
          Inputs.rho1 1%float 500%float 5 [2.5%float; 1%float] Inputs.nm0 Inputs.cl0 with
  | Some (Ok (_, e :: _)) =>
      ev_quad_lo e = 0%float /\ ev_quad_hi e = 2.5%float /\
      ev_integrand e 1%float = 6.25%float /\
      Inputs.mgas_sq 1%float Inputs.nm0 = 1%float
  | _ => False
  end.
Proof. vm_compute. repeat split; reflexivity. Qed.

(** ** calc_rdelta_p: no bound on the number of iterations *)

Section RdeltaUnbounded.
Context {F : Type} `{PyFloat F}.
Variable nfw_mass_model : F -> F -> F -> F -> F.
Variable sersic_mass_model : F -> F -> clustermeta F -> F.
Variable mgas_intmodel : F -> nemodel F -> F.
Variable quad : (F -> F) -> F -> F -> F.
Variable calc_rhocrit : F -> F.
Variable Msun : F.
Variable overdensity : F.

(** While the ratio stays above the target, the loop is still running
    after [fuel] iterations: nothing else ends it. *)
Lemma search_runs (eval : F -> @evaluation F) (fuel : nat) :
  forall rd ev trace,
  fgt (ev_ratio ev) overdensity = true ->
  (forall i, (1 <= i <= fuel)%nat ->
     fgt (ev_ratio (eval (float_of_int (rd + Z.of_nat i)))) overdensity = true) ->
  search overdensity eval fuel rd ev trace = None.
Proof.
  induction fuel as [|fuel IH]; intros rd ev trace Hev Hall; simpl; rewrite Hev.
  - reflexivity.
  - apply IH.
    + exact (Hall 1%nat ltac:(lia)).
    + intros i Hi.
      replace (rd + 1 + Z.of_nat i) with (rd + Z.of_nat (S i)) by lia.
      apply Hall; lia.
Qed.

(** Claim C7 (amended).  [calc_rdelta_p] has no iteration guard and raises
    no error of its own: every error it reports comes from the code before
    the loop (indexing [row], an unsupported [count_mstar], [int(c*rs)]);
    and as long as the ratio is above the target at the seed [c*rs] and at
    the radii [int(c*rs)+1], ..., [int(c*rs)+n], the search is still running
    after [n] iterations, whatever [n]. *)
Theorem calc_rdelta_p_unguarded (n : nat) (row : list F) (nm : nemodel F)
    (cluster : clustermeta F) :
  (forall e, calc_rdelta_p nfw_mass_model sersic_mass_model mgas_intmodel quad
               calc_rhocrit Msun overdensity n row nm cluster = Some (Err e) ->
             calc_rdelta_seed sersic_mass_model Msun row cluster = Err e) /\
  (forall c rs mass_dev rd0,
     calc_rdelta_seed sersic_mass_model Msun row cluster = Ok (c, rs, mass_dev, rd0) ->
     let eval := evaluate nfw_mass_model mgas_intmodel quad calc_rhocrit Msun
                   nm cluster c rs mass_dev in
     fgt (ev_ratio (eval (fmul c rs))) overdensity = true ->
     (forall i, (1 <= i <= n)%nat ->
        fgt (ev_ratio (eval (float_of_int (rd0 + Z.of_nat i)))) overdensity = true) ->
     calc_rdelta_p nfw_mass_model sersic_mass_model mgas_intmodel quad
       calc_rhocrit Msun overdensity n row nm cluster = None).
Proof.
  unfold calc_rdelta_p; split.
  - intros e.
    destruct (calc_rdelta_seed sersic_mass_model Msun row cluster)
      as [[[[c rs] md] rd0]|e'] eqn:Hseed.
    + destruct (search _ _ _ _ _ _) as [[[? ?] ?]|]; discriminate.
    + intro Heq; injection Heq as ->; reflexivity.
  - intros c rs md rd0 Hseed; cbv zeta; intros Hseed_ratio Hall.
    rewrite Hseed.
    rewrite (search_runs _ n rd0 _ _ Hseed_ratio Hall).
    reflexivity.
Qed.

End RdeltaUnbounded.

(** On [Inputs.rowq] (c = 100, rs = 1, exact arithmetic), the ratio at
    every positive integer radius is 30000/(4 pi), about 2387, above the
    target 500. *)
Lemma q_ratio_above (zz : Z) (Hz : 0 < zz) :
  fgt (ev_ratio (evaluate Inputs.nfw0q Inputs.mgas_sq_q Inputs.quad_mid_q Inputs.rhoq 1%Q
          Inputs.nmq Inputs.clq 100%Q 1%Q (fun _ => inject_Z 0) (inject_Z zz))) 500%Q
  = true.
Proof.
  cbn -[Qle_bool Qmult Qdiv Qplus Qminus Qinv inject_Z].
  unfold Inputs.nfw0q, Inputs.quad_mid_q, Inputs.mgas_sq_q, Inputs.rhoq.
  change (Q_pow (inject_Z zz) (inject_Z 3))
    with (inject_Z zz * (inject_Z zz * (inject_Z zz * 1)))%Q.
  set (r := inject_Z zz).
  set (pi := Qmake 3141592653589793 1000000000000000).
  assert (Hr : ~ (r == 0)%Q) by (unfold r, Qeq; simpl; lia).
  assert (Hpi : ~ (pi == 0)%Q) by (unfold pi, Qeq; simpl; lia).
  match goal with |- negb (Qle_bool ?e _) = true =>
    assert (He : (e == (30000 # 1) / ((4 # 1) * pi))%Q) end.
  { unfold Qdiv. field. repeat split; auto; unfold Qeq; simpl; lia. }
  destruct (Qle_bool _ 500) eqn:E; [|reflexivity].
  apply Qle_bool_iff in E. rewrite He in E.
  exfalso; vm_compute in E; apply E; reflexivity.
Qed.

Lemma q_seed :
  calc_rdelta_seed Inputs.sersic0q 1%Q Inputs.rowq Inputs.clq
  = Ok ((100 # 1)%Q, (1 # 1)%Q, fun _ => inject_Z 0, 100%Z).
Proof. reflexivity. Qed.

(** Witness for [calc_rdelta_p_unguarded]: three iterations on
    [Inputs.rowq] leave the search running. *)
Lemma calc_rdelta_p_unguarded_witness :
  calc_rdelta_p Inputs.nfw0q Inputs.sersic0q Inputs.mgas_sq_q Inputs.quad_mid_q
    Inputs.rhoq 1%Q 500%Q 3 Inputs.rowq Inputs.nmq Inputs.clq = None.
Proof.
  apply (proj2 (calc_rdelta_p_unguarded Inputs.nfw0q Inputs.sersic0q Inputs.mgas_sq_q
                  Inputs.quad_mid_q Inputs.rhoq 1%Q 500%Q 3 Inputs.rowq Inputs.nmq
                  Inputs.clq) _ _ _ _ q_seed).
  - vm_compute. reflexivity.
  - intros i Hi. destruct i as [|[|[|[|i]]]]; try lia; vm_compute; reflexivity.
Defined.

(** Claim C7 (counterexample).  No iteration count bounds the search: on
    [Inputs.rowq] (uniform gas density, exact arithmetic) the ratio stays
    above the target at every radius, and [calc_rdelta_p] neither returns
    nor raises after any number of iterations. *)
Lemma calc_rdelta_p_runs_forever :
  ~ (exists fuel out,
       calc_rdelta_p Inputs.nfw0q Inputs.sersic0q Inputs.mgas_sq_q Inputs.quad_mid_q
         Inputs.rhoq 1%Q 500%Q fuel Inputs.rowq Inputs.nmq Inputs.clq = Some out).
Proof.
  intros (fuel & out & Hrun).
  unfold calc_rdelta_p in Hrun. rewrite q_seed in Hrun.
  rewrite search_runs in Hrun; [discriminate | vm_compute; reflexivity |].
  intros i Hi. apply q_ratio_above. lia.
Qed.

(** Claim C1 (code bug).  With [refindex = -1] (the value [example.py]
    uses), the test [rr == clustermeta['refindex']] never holds, so the
    reference bin (the last one) is not copied: [quad] is called for it
    over the zero-width interval [radius_ref, radius_ref], and the value
    returned there is [tspec_ref*ne_ref/ne_ref - K*0], which rounds to
    3.7000000000000006 instead of the observed 3.7. *)
Theorem Tmodel_func_reference_bin_integrated :
  exists tfit_arr calls,
    Tmodel_func Inputs.intmodel_r Inputs.quad_mid 1%float 1%float 1%float 1%float
      1%float 1%float 1%float Inputs.tspec_t Inputs.nm_t Inputs.cl0
      5%float 100%float 0%float = Ok (tfit_arr, calls) /\
    py_index (map tspec Inputs.tspec_t) (refindex Inputs.cl0)
      = Ok 0x1.d99999999999ap+1%float /\
    py_index (map radius Inputs.tspec_t) (refindex Inputs.cl0) = Ok 2%float /\
    In (1, 2%float, 2%float) calls /\
    py_index tfit_arr (refindex Inputs.cl0) = Ok 0x1.d99999999999bp+1%float /\
    PrimFloat.eqb 0x1.d99999999999bp+1%float 0x1.d99999999999ap+1%float = false.
Proof.
  eexists _, _. split; [vm_compute; reflexivity|].
  split; [reflexivity|]. split; [reflexivity|].
  split; [simpl; right; left; reflexivity|].
  split; [vm_compute; reflexivity | reflexivity].
Qed.

(** [arr[b:]] for a non-negative [b] drops the first [b] elements. *)
Lemma py_slice_from_nonneg {A} (l : list A) (b : Z) (Hb : 0 <= b) :
  py_slice_from l b = skipn (Z.to_nat b) l.
Proof.
  unfold py_slice_from.
  destruct (Z.ltb_spec b 0); [lia|].
  destruct (Z.le_ge_cases b (Z.of_nat (List.length l))) as [Hle|Hge].
  - rewrite Z.min_l by exact Hle. reflexivity.
  - rewrite Z.min_r by lia. rewrite Nat2Z.id.
    rewrite skipn_all, skipn_all2; [reflexivity|lia].
Qed.

Lemma concat_skipn_shape {A} (chain : list (list (list A))) (n b d : nat)
    (Hshape : Forall (fun w => List.length w = n /\
                               Forall (fun v => List.length v = d) w) chain) :
  List.length (List.concat (map (skipn b) chain)) = (List.length chain * (n - b))%nat /\
  Forall (fun v => List.length v = d) (List.concat (map (skipn b) chain)).
Proof.
  induction Hshape as [|w chain [Hw Hv] Hrest IH]; simpl; [split; [reflexivity | constructor]|].
  destruct IH as [IHl IHf].
  rewrite length_app, length_skipn, IHl, Hw. split; [lia|].
  apply Forall_app. split; [|exact IHf].
  rewrite <- (firstn_skipn b w) in Hv. apply Forall_app in Hv. exact (proj2 Hv).
Qed.

Lemma fit_mcmc_ndim_cases {F} (cl : clustermeta F) :
  incl_mstar cl = 1 \/ incl_mstar cl = 0 ->
  fit_mcmc_ndim cl = Ok (if incl_mstar cl =? 1 then 3 else 2).
Proof.
  unfold fit_mcmc_ndim. intros [E|E]; rewrite E; reflexivity.
Qed.

(** Claim C6.  For [0 <= Nburnin <= Nsteps] and a chain of the shape emcee
    produces ([Nwalkers] walkers of [Nsteps] steps of [ndim]-vectors), the
    samples returned by [fit_mcmc] are the steps of every walker after its
    first [Nburnin], walker by walker: [Nwalkers * (Nsteps - Nburnin)] rows,
    each of length 3 when [incl_mstar = 1] and 2 when [incl_mstar = 0]. *)
Theorem fit_mcmc_samples_shape {F} (emcee_chain : Z -> Z -> Z -> list (list (list F)))
    (cl : clustermeta F) (Nwalkers Nsteps Nburnin : Z)
    (Hincl : incl_mstar cl = 1 \/ incl_mstar cl = 0)
    (Hwalkers : 0 <= Nwalkers) (Hburnin : 0 <= Nburnin <= Nsteps)
    (Hshape : chain_shape (emcee_chain Nwalkers (if incl_mstar cl =? 1 then 3 else 2) Nsteps)
                Nwalkers Nsteps (if incl_mstar cl =? 1 then 3 else 2)) :
  exists samples,
    fit_mcmc emcee_chain cl Nwalkers Nsteps Nburnin
      = Ok (samples, emcee_chain Nwalkers (if incl_mstar cl =? 1 then 3 else 2) Nsteps) /\
    samples = List.concat (map (skipn (Z.to_nat Nburnin))
                (emcee_chain Nwalkers (if incl_mstar cl =? 1 then 3 else 2) Nsteps)) /\
    Z.of_nat (List.length samples) = Nwalkers * (Nsteps - Nburnin) /\
    Forall (fun row => Z.of_nat (List.length row) = if incl_mstar cl =? 1 then 3 else 2)
      samples.
Proof.
  unfold fit_mcmc. rewrite (fit_mcmc_ndim_cases cl Hincl). cbn [bind].
  set (ndim := if incl_mstar cl =? 1 then 3 else 2) in *.
  set (chain := emcee_chain Nwalkers ndim Nsteps) in *.
  assert (Hndim : 0 <= ndim) by (unfold ndim; destruct (incl_mstar cl =? 1); lia).
  destruct Hshape as [Hlen Hw].
  destruct (concat_skipn_shape chain (Z.to_nat Nsteps) (Z.to_nat Nburnin) (Z.to_nat ndim) Hw)
    as [Hl Hf].
  assert (Hsl : map (fun walker => py_slice_from walker Nburnin) chain
                = map (skipn (Z.to_nat Nburnin)) chain).
  { apply map_ext. intro w. apply py_slice_from_nonneg. lia. }
  rewrite Hsl.
  eexists. split; [reflexivity|]. split; [reflexivity|]. split.
  - rewrite Hl, Hlen. rewrite Nat2Z.inj_mul, <- Z2Nat.inj_sub by lia.
    rewrite !Z2Nat.id by lia. reflexivity.
  - eapply Forall_impl; [|exact Hf]. intros v Hv. simpl in Hv. rewrite Hv. lia.
Qed.

(** Witness for [fit_mcmc_samples_shape]: 2 walkers, 3 steps, 1 burn-in
    step, with stellar mass. *)
Lemma fit_mcmc_samples_shape_witness :
  exists samples,
    fit_mcmc Inputs.chain_ex Inputs.cl0 2 3 1 = Ok (samples, Inputs.chain_ex 2 3 3) /\
    samples = List.concat (map (skipn 1) (Inputs.chain_ex 2 3 3)) /\
    Z.of_nat (List.length samples) = 2 * (3 - 1) /\
    Forall (fun row => Z.of_nat (List.length row) = 3) samples.
Proof.
  exact (fit_mcmc_samples_shape Inputs.chain_ex Inputs.cl0 2 3 1
           (or_introl eq_refl) ltac:(lia) ltac:(lia)
           ltac:(split; [reflexivity | vm_compute; repeat constructor])).
Defined.

(** Claim C8 (amended).  When [Nburnin = Nsteps], [fit_mcmc] returns an
    empty sample set normally: no error is raised (the code has no
    ConfigurationError, nor any check of [Nburnin]). *)
Theorem fit_mcmc_full_burnin_empty {F} (emcee_chain : Z -> Z -> Z -> list (list (list F)))
    (cl : clustermeta F) (Nwalkers Nsteps : Z)
    (Hincl : incl_mstar cl = 1 \/ incl_mstar cl = 0) (Hsteps : 0 <= Nsteps)
    (Hshape : chain_shape (emcee_chain Nwalkers (if incl_mstar cl =? 1 then 3 else 2) Nsteps)
                Nwalkers Nsteps (if incl_mstar cl =? 1 then 3 else 2)) :
  fit_mcmc emcee_chain cl Nwalkers Nsteps Nsteps
  = Ok ([], emcee_chain Nwalkers (if incl_mstar cl =? 1 then 3 else 2) Nsteps).
Proof.
  unfold fit_mcmc. rewrite (fit_mcmc_ndim_cases cl Hincl). cbn [bind].
  destruct Hshape as [_ Hw]. do 2 f_equal.
  induction Hw as [|w chain [Hlw _] _ IH]; [reflexivity|].
  simpl. rewrite IH, py_slice_from_nonneg by exact Hsteps.
  rewrite skipn_all2; [reflexivity|]. lia.
Qed.

(** Witness for [fit_mcmc_full_burnin_empty]: 2 walkers, 3 steps. *)
Lemma fit_mcmc_full_burnin_empty_witness :
  fit_mcmc Inputs.chain_ex Inputs.cl0 2 3 3 = Ok ([], Inputs.chain_ex 2 3 3).
Proof.
  exact (fit_mcmc_full_burnin_empty Inputs.chain_ex Inputs.cl0 2 3
           (or_introl eq_refl) ltac:(lia)
           ltac:(split; [reflexivity | vm_compute; repeat constructor])).
Defined.

(** Claim C8 (counterexample).  Twenty walkers (as in [example.py]) and
    [Nburnin = Nsteps = 10]: [fit_mcmc] returns [Ok] with an empty sample
    list, it reports no error. *)
Lemma fit_mcmc_full_burnin_no_error :
  exists sampler, fit_mcmc Inputs.chain_ex Inputs.cl0 20 10 10 = Ok ([], sampler).
Proof. eexists. vm_compute. reflexivity. Qed.

(** Claim C9.  For a non-empty rectangular [samples] with 3 columns when
    [count_mstar = 1] (2 when it is 0) and a non-empty [samples_aux] with 5
    columns, [samples_results] returns, for each quantity, [summary] of its
    column, i.e. [(P50, P84 - P50, P50 - P16)] of [percentile] over all the
    rows: c, rs, rdelta, mdelta, mdm and mgas always, normsersic and mstars
    exactly when [count_mstar = 1]. *)
Theorem samples_results_summary {F} `{PyFloat F} (percentile : list F -> Z -> F)
    (samples samples_aux : list (list F)) (cluster : clustermeta F) (k : nat)
    (Hk : (count_mstar cluster = 1 /\ k = 3%nat) \/ (count_mstar cluster = 0 /\ k = 2%nat))
    (Hs : samples <> []) (Hsk : Forall (fun row => List.length row = k) samples)
    (Ha : samples_aux <> []) (Hak : Forall (fun row => List.length row = 5%nat) samples_aux) :
  samples_results percentile samples samples_aux cluster =
  Ok ([("c"%string, summary percentile (column samples 0));
       ("rs"%string, summary percentile (column samples 1));
       ("rdelta"%string, summary percentile (column samples_aux 0));
       ("mdelta"%string, summary percentile (column samples_aux 1));
       ("mdm"%string, summary percentile (column samples_aux 2));
       ("mgas"%string, summary percentile (column samples_aux 4))] ++
      (if count_mstar cluster =? 1 then
         [("normsersic"%string, summary percentile (column samples 2));
          ("mstars"%string, summary percentile (column samples_aux 3))]
       else [])).
Proof.
  destruct samples as [|row rest]; [congruence|].
  destruct samples_aux as [|arow arest]; [congruence|].
  pose proof (Forall_inv Hsk) as Hrow. pose proof (Forall_inv Hak) as Harow.
  simpl in Hrow, Harow.
  unfold samples_results, summaries, columns.
  rewrite Hrow, Harow.
  destruct Hk as [[E ->]|[E ->]]; rewrite E; reflexivity.
Qed.

(** Witness for [samples_results_summary]: one sample without stellar
    mass. *)
Lemma samples_results_summary_witness :
  samples_results Inputs.percentile_first [[4%float; 5%float]]
    [[1%float; 2%float; 3%float; 4%float; 5%float]] Inputs.cl0 =
  Ok ([("c"%string, summary Inputs.percentile_first (column [[4%float; 5%float]] 0));
       ("rs"%string, summary Inputs.percentile_first (column [[4%float; 5%float]] 1));
       ("rdelta"%string, summary Inputs.percentile_first
                           (column [[1%float; 2%float; 3%float; 4%float; 5%float]] 0));
       ("mdelta"%string, summary Inputs.percentile_first
                           (column [[1%float; 2%float; 3%float; 4%float; 5%float]] 1));
       ("mdm"%string, summary Inputs.percentile_first
                        (column [[1%float; 2%float; 3%float; 4%float; 5%float]] 2));
       ("mgas"%string, summary Inputs.percentile_first
                         (column [[1%float; 2%float; 3%float; 4%float; 5%float]] 4))] ++
      (if count_mstar Inputs.cl0 =? 1 then
         [("normsersic"%string, summary Inputs.percentile_first (column [[4%float; 5%float]] 2));
          ("mstars"%string, summary Inputs.percentile_first
                              (column [[1%float; 2%float; 3%float; 4%float; 5%float]] 3))]
       else [])).
Proof.
  exact (samples_results_summary Inputs.percentile_first [[4%float; 5%float]]
           [[1%float; 2%float; 3%float; 4%float; 5%float]] Inputs.cl0 2
           (or_intror (conj eq_refl eq_refl)) ltac:(discriminate)
           ltac:(repeat constructor) ltac:(discriminate) ltac:(repeat constructor)).
Defined.

(** ** Python indexing *)

Lemma py_index_in_range {A} (l : list A) (i : Z) (d : A) :
  0 <= i < Z.of_nat (List.length l) -> py_index l i = Ok (nth (Z.to_nat i) l d).
Proof.
  intros Hi. unfold py_index.
  destruct (Z.ltb_spec i 0); [lia|]. destruct (Z.ltb_spec i 0); [lia|].
  rewrite (nth_error_nth' l d) by lia. reflexivity.
Qed.

Lemma py_index_neg {A} (l : list A) (i : Z) (d : A) :
  - Z.of_nat (List.length l) <= i < 0 ->
  py_index l i = Ok (nth (Z.to_nat (Z.of_nat (List.length l) + i)) l d).
Proof.
  intros Hi. unfold py_index.
  destruct (Z.ltb_spec i 0); [|lia].
  destruct (Z.ltb_spec (Z.of_nat (List.length l) + i) 0); [lia|].
  rewrite (nth_error_nth' l d) by lia. reflexivity.
Qed.

Lemma py_index_ok_range {A} (l : list A) (i : Z) (x : A) :
  py_index l i = Ok x -> - Z.of_nat (List.length l) <= i < Z.of_nat (List.length l).
Proof.
  unfold py_index. intro Hx.
  destruct (Z.ltb_spec i 0).
  - destruct (Z.ltb_spec (Z.of_nat (List.length l) + i) 0); [discriminate|].
    destruct (nth_error l _) eqn:E; [|discriminate].
    assert (Hs : nth_error l (Z.to_nat (Z.of_nat (List.length l) + i)) <> None) by congruence.
    apply nth_error_Some in Hs. lia.
  - destruct (Z.ltb_spec i 0); [lia|].
    destruct (nth_error l _) eqn:E; [|discriminate].
    assert (Hs : nth_error l (Z.to_nat i) <> None) by congruence.
    apply nth_error_Some in Hs. lia.
Qed.

Lemma py_index_err {A} (l : list A) (i : Z) (e : exn) :
  py_index l i = Err e -> e = IndexError.
Proof.
  unfold py_index.
  destruct ((if i <? 0 then Z.of_nat (List.length l) + i else i) <? 0); [congruence|].
  destruct (nth_error _ _); congruence.
Qed.

Lemma bind_err {A B} (m : result A) (k : A -> result B) (e : exn) :
  bind m k = Err e -> m = Err e \/ exists a, m = Ok a /\ k a = Err e.
Proof. destruct m; simpl; [right; eauto | left; congruence]. Qed.

Section TmodelFacts.
Context {F : Type} `{PyFloat F}.
Variable intmodel : nemodel F -> F -> F -> F -> F -> clustermeta F -> F.
Variable quad : (F -> F) -> F -> F -> F.
Variables (mu mA G cm_m joule_kev Msun_kg kpc_m : F).

Lemma Tmodel_loop_spec (data : list (tspec_row F)) (nm : nemodel F) (cl : clustermeta F)
    (c rs ns ne_ref tspec_ref radius_ref : F) (rrs : list Z) :
  Forall (fun rr => 0 <= rr < Z.of_nat (List.length data) /\
                    rr < Z.of_nat (List.length (nefit nm))) rrs ->
  forall acc calls, exists outs,
    Tmodel_loop intmodel quad mu mA G cm_m joule_kev Msun_kg kpc_m data nm cl
      c rs ns ne_ref tspec_ref radius_ref rrs acc calls
    = Ok (acc ++ outs,
          calls ++ map (fun rr => (rr, radius_ref, nth (Z.to_nat rr) (map radius data) radius_ref))
                     (filter (fun rr => negb (rr =? refindex cl)) rrs)) /\
    List.length outs = List.length rrs /\
    Forall2 (fun rr o => rr = refindex cl -> o = nth (Z.to_nat rr) (map tspec data) tspec_ref)
      rrs outs.
Proof.
  induction 1 as [|rr rrs [Hlo Hne] Hrest IH]; intros acc calls.
  - exists []. simpl. rewrite !app_nil_r. auto.
  - cbn [Tmodel_loop filter]. destruct (rr =? refindex cl) eqn:E; cbn [negb].
    + rewrite (py_index_in_range (map tspec data) rr tspec_ref) by (rewrite length_map; lia).
      cbn [bind].
      destruct (IH (acc ++ [nth (Z.to_nat rr) (map tspec data) tspec_ref]) calls)
        as (outs & Hl & Hlen & HF).
      eexists. rewrite Hl, <- app_assoc. split; [reflexivity|].
      split; [simpl; lia|]. constructor; auto.
    + rewrite (py_index_in_range (map radius data) rr radius_ref) by (rewrite length_map; lia).
      rewrite (py_index_in_range (nefit nm) rr ne_ref) by lia.
      cbn [bind].
      edestruct IH as (outs & Hl & Hlen & HF). rewrite Hl.
      eexists. rewrite <- !app_assoc. split; [reflexivity|].
      split; [simpl; lia|]. constructor; auto.
      intro Heq. apply Z.eqb_neq in E. congruence.
Qed.

Lemma Tmodel_loop_inv (data : list (tspec_row F)) (nm : nemodel F) (cl : clustermeta F)
    (c rs ns ne_ref tspec_ref radius_ref : F) (rrs : list Z) :
  forall acc calls out,
    Tmodel_loop intmodel quad mu mA G cm_m joule_kev Msun_kg kpc_m data nm cl
      c rs ns ne_ref tspec_ref radius_ref rrs acc calls = Ok out ->
    Forall (fun rr => rr <> refindex cl -> exists v, py_index (nefit nm) rr = Ok v) rrs.
Proof.
  induction rrs as [|rr rrs IH]; intros acc calls out Hrun; [constructor|].
  cbn [Tmodel_loop] in Hrun. destruct (rr =? refindex cl) eqn:E.
  - destruct (py_index (map tspec data) rr); [|discriminate]. cbn [bind] in Hrun.
    constructor; [apply Z.eqb_eq in E; congruence | eauto].
  - destruct (py_index (map radius data) rr); [|discriminate].
    destruct (py_index (nefit nm) rr) eqn:En; [|discriminate]. cbn [bind] in Hrun.
    constructor; eauto.
Qed.

Lemma Tmodel_loop_err (data : list (tspec_row F)) (nm : nemodel F) (cl : clustermeta F)
    (c rs ns ne_ref tspec_ref radius_ref : F) (rrs : list Z) :
  forall acc calls e,
    Tmodel_loop intmodel quad mu mA G cm_m joule_kev Msun_kg kpc_m data nm cl
      c rs ns ne_ref tspec_ref radius_ref rrs acc calls = Err e -> e = IndexError.
Proof.
  induction rrs as [|rr rrs IH]; intros acc calls e Hrun; [discriminate|].
  cbn [Tmodel_loop] in Hrun. destruct (rr =? refindex cl).
  - destruct (py_index (map tspec data) rr) eqn:E1; cbn [bind] in Hrun; eauto.
    injection Hrun as <-. exact (py_index_err _ _ _ E1).
  - destruct (py_index (map radius data) rr) eqn:E1; cbn [bind] in Hrun;
      [|injection Hrun as <-; exact (py_index_err _ _ _ E1)].
    destruct (py_index (nefit nm) rr) eqn:E2; cbn [bind] in Hrun; eauto.
    injection Hrun as <-. exact (py_index_err _ _ _ E2).
Qed.

Lemma seq_range (n : nat) :
  Forall (fun rr => 0 <= rr < Z.of_nat n) (map Z.of_nat (seq 0 n)).
Proof.
  apply Forall_forall. intros x Hx. apply in_map_iff in Hx as (i & <- & Hi).
  apply in_seq in Hi. lia.
Qed.

End TmodelFacts.

Lemma py_index_defined {A} (l : list A) (i : Z) :
  - Z.of_nat (List.length l) <= i < Z.of_nat (List.length l) -> exists x, py_index l i = Ok x.
Proof.
  intros Hi. destruct l as [|d l']; [simpl in Hi; lia|].
  destruct (Z.ltb_spec i 0).
  - eexists. apply (py_index_neg _ _ d). lia.
  - eexists. apply (py_index_in_range _ _ d). lia.
Qed.

Lemma Forall2_nth_at {A B} (P : A -> B -> Prop) (l1 : list A) (l2 : list B) (i : nat)
    (d1 : A) (d2 : B) :
  Forall2 P l1 l2 -> (i < List.length l1)%nat -> P (nth i l1 d1) (nth i l2 d2).
Proof.
  intros HF. revert i. induction HF as [|x y l1 l2 Hxy HF IH]; intros i Hi;
    [simpl in Hi; lia|].
  destruct i; simpl; [exact Hxy | apply IH; simpl in Hi; lia].
Qed.

Lemma nth_seq_range (n i : nat) : (i < n)%nat -> nth i (map Z.of_nat (seq 0 n)) 0 = Z.of_nat i.
Proof.
  intro Hi. rewrite (nth_indep _ 0 (Z.of_nat 0)) by (rewrite length_map, length_seq; lia).
  rewrite map_nth, seq_nth by lia. reflexivity.
Qed.

Lemma filter_seq_length (k : Z) (n : nat) :
  List.length (filter (fun rr => negb (rr =? k)) (map Z.of_nat (seq 0 n)))
  = if (0 <=? k) && (k <? Z.of_nat n) then (n - 1)%nat else n.
Proof.
  induction n as [|n IH]; [simpl; destruct (0 <=? k); [destruct (Z.ltb_spec k 0)|]; reflexivity|].
  rewrite seq_S, map_app, filter_app, length_app, IH.
  destruct (Z.leb_spec 0 k); destruct (Z.ltb_spec k (Z.of_nat n));
    destruct (Z.ltb_spec k (Z.of_nat (S n))); destruct (Z.eqb_spec (Z.of_nat n) k);
    simpl; try rewrite (proj2 (Z.eqb_eq _ _)) by assumption;
    try rewrite (proj2 (Z.eqb_neq _ _)) by assumption; simpl; lia.
Qed.

Lemma filter_all_nonneg (k : Z) (rrs : list Z) :
  k < 0 -> Forall (fun rr => 0 <= rr) rrs -> filter (fun rr => negb (rr =? k)) rrs = rrs.
Proof.
  intros Hk HF. induction HF as [|rr rrs Hrr _ IH]; [reflexivity|].
  simpl. rewrite (proj2 (Z.eqb_neq rr k)) by lia. simpl. f_equal. exact IH.
Qed.

Section TmodelExtras.
Context {F : Type} `{PyFloat F}.
Variable intmodel : nemodel F -> F -> F -> F -> F -> clustermeta F -> F.
Variable quad : (F -> F) -> F -> F -> F.
Variables (mu mA G cm_m joule_kev Msun_kg kpc_m : F).

(** Extra.  With [0 <= refindex < len(tspec_data)] and a density model
    given at every bin, [Tmodel_func] returns one temperature per bin, the
    one at [refindex] being the observed [tspec[refindex]]; [quad] is
    called [len(tspec_data) - 1] times, never for [refindex], each time
    from [radius[refindex]] to the radius of the bin it is called for. *)
Theorem Tmodel_func_copies_reference (data : list (tspec_row F)) (nm : nemodel F)
    (cl : clustermeta F) (c rs normsersic : F)
    (Href : 0 <= refindex cl < Z.of_nat (List.length data))
    (Hne : (List.length data <= List.length (nefit nm))%nat) :
  exists tfit_arr calls,
    Tmodel_func intmodel quad mu mA G cm_m joule_kev Msun_kg kpc_m data nm cl
      c rs normsersic = Ok (tfit_arr, calls) /\
    List.length tfit_arr = List.length data /\
    py_index tfit_arr (refindex cl) = py_index (map tspec data) (refindex cl) /\
    List.length calls = (List.length data - 1)%nat /\
    Forall (fun '(rr, lo, hi) =>
              rr <> refindex cl /\
              py_index (map radius data) (refindex cl) = Ok lo /\
              py_index (map radius data) rr = Ok hi) calls.
Proof.
  unfold Tmodel_func.
  rewrite (py_index_in_range (nefit nm) _ c) by lia.
  rewrite (py_index_in_range (map tspec data) _ c) by (rewrite length_map; lia).
  rewrite (py_index_in_range (map radius data) _ c) by (rewrite length_map; lia).
  cbn [bind].
  set (k := refindex cl) in *.
  set (rrs := map Z.of_nat (seq 0 (List.length data))).
  assert (Hf : Forall (fun rr => 0 <= rr < Z.of_nat (List.length data) /\
                                 rr < Z.of_nat (List.length (nefit nm))) rrs).
  { eapply Forall_impl; [|apply seq_range]. simpl. intros a Ha; lia. }
  destruct (Tmodel_loop_spec intmodel quad mu mA G cm_m joule_kev Msun_kg kpc_m data nm cl
              c rs normsersic (nth (Z.to_nat k) (nefit nm) c)
              (nth (Z.to_nat k) (map tspec data) c) (nth (Z.to_nat k) (map radius data) c)
              rrs Hf [] []) as (outs & Hl & Hlen & HF).
  rewrite Hl. simpl app.
  assert (Hlr : List.length rrs = List.length data) by (unfold rrs; rewrite length_map, length_seq; reflexivity).
  eexists _, _. split; [reflexivity|].
  split; [lia|]. split; [|split].
  - rewrite (py_index_in_range outs k c) by lia.
    pose proof (Forall2_nth_at _ _ _ (Z.to_nat k) 0 c HF ltac:(lia)) as Hk.
    unfold rrs in Hk. rewrite nth_seq_range in Hk by lia.
    rewrite Nat2Z.id in Hk. rewrite Hk by (rewrite Z2Nat.id; [reflexivity|lia]).
    f_equal. apply nth_indep. rewrite length_map. lia.
  - rewrite length_map. unfold rrs. rewrite filter_seq_length. unfold k in *.
    destruct (Z.leb_spec 0 (refindex cl)); [|lia].
    destruct (Z.ltb_spec (refindex cl) (Z.of_nat (List.length data))); [reflexivity|lia].
  - apply Forall_map. apply Forall_forall. intros rr Hin.
    apply filter_In in Hin as [Hin Hneq].
    apply (proj1 (Forall_forall _ _) Hf) in Hin.
    split; [unfold k; apply Z.eqb_neq; destruct (rr =? refindex cl); simpl in Hneq; congruence|].
    split; [reflexivity|].
    apply py_index_in_range. rewrite length_map. lia.
Qed.

(** Extra.  With a negative [refindex] ([-len(tspec_data) <= refindex < 0])
    and a density model given at every bin, the test [rr == refindex] never
    holds: [quad] is called for every bin in order, each time from the
    reference radius [radius[refindex]], including once for the reference
    bin itself over the zero-width interval [radius_ref, radius_ref]. *)
Theorem Tmodel_func_negative_refindex (data : list (tspec_row F)) (nm : nemodel F)
    (cl : clustermeta F) (c rs normsersic : F)
    (Href : - Z.of_nat (List.length data) <= refindex cl < 0)
    (Hne : (List.length data <= List.length (nefit nm))%nat) :
  exists tfit_arr calls radius_ref,
    Tmodel_func intmodel quad mu mA G cm_m joule_kev Msun_kg kpc_m data nm cl
      c rs normsersic = Ok (tfit_arr, calls) /\
    List.length tfit_arr = List.length data /\
    py_index (map radius data) (refindex cl) = Ok radius_ref /\
    map (fun '(rr, _, _) => rr) calls = map Z.of_nat (seq 0 (List.length data)) /\
    Forall (fun '(rr, lo, hi) => lo = radius_ref /\ py_index (map radius data) rr = Ok hi)
      calls /\
    In (Z.of_nat (List.length data) + refindex cl, radius_ref, radius_ref) calls.
Proof.
  unfold Tmodel_func.
  assert (Hn0 : (0 < List.length data)%nat) by lia.
  destruct (py_index_defined (nefit nm) (refindex cl)) as [ne_ref Hne_ref]; [lia|].
  destruct (py_index_defined (map tspec data) (refindex cl)) as [t_ref Ht_ref];
    [rewrite length_map; lia|].
  rewrite Hne_ref, Ht_ref.
  rewrite (py_index_neg (map radius data) _ c) by (rewrite length_map; lia).
  cbn [bind]. rewrite length_map.
  set (k := refindex cl) in *.
  set (r_ref := nth (Z.to_nat (Z.of_nat (List.length data) + k)) (map radius data) c).
  set (rrs := map Z.of_nat (seq 0 (List.length data))).
  assert (Hf : Forall (fun rr => 0 <= rr < Z.of_nat (List.length data) /\
                                 rr < Z.of_nat (List.length (nefit nm))) rrs).
  { eapply Forall_impl; [|apply seq_range]. simpl. intros a Ha; lia. }
  destruct (Tmodel_loop_spec intmodel quad mu mA G cm_m joule_kev Msun_kg kpc_m data nm cl
              c rs normsersic ne_ref t_ref r_ref rrs Hf [] []) as (outs & Hl & Hlen & _).
  rewrite Hl. simpl app.
  rewrite filter_all_nonneg; [| unfold k in *; lia | eapply Forall_impl; [|exact Hf]; simpl; intros a Ha; lia].
  assert (Hlr : List.length rrs = List.length data)
    by (unfold rrs; rewrite length_map, length_seq; reflexivity).
  exists outs; eexists; exists r_ref. split; [reflexivity|]. split; [lia|]. split; [reflexivity|].
  split; [|split].
  - rewrite map_map. apply map_id.
  - apply Forall_map. apply Forall_forall. intros rr Hin.
    apply (proj1 (Forall_forall _ _) Hf) in Hin.
    split; [reflexivity|]. apply py_index_in_range. rewrite length_map. lia.
  - apply in_map_iff. exists (Z.of_nat (List.length data) + k).
    split.
    + f_equal. unfold r_ref. apply nth_indep. rewrite length_map. lia.
    + unfold rrs. apply in_map_iff. exists (Z.to_nat (Z.of_nat (List.length data) + k)).
      split; [lia|]. apply in_seq. lia.
Qed.

(** Extra.  [Tmodel_func] succeeds exactly when [refindex] is a valid
    Python index of [tspec_data] ([-len <= refindex < len]) and
    [nemodel['nefit']] has at least one value per bin; every failure is an
    [IndexError]. *)
Theorem Tmodel_func_ok_iff (data : list (tspec_row F)) (nm : nemodel F)
    (cl : clustermeta F) (c rs normsersic : F) :
  ((exists out, Tmodel_func intmodel quad mu mA G cm_m joule_kev Msun_kg kpc_m data nm cl
                  c rs normsersic = Ok out) <->
   (- Z.of_nat (List.length data) <= refindex cl < Z.of_nat (List.length data) /\
    (List.length data <= List.length (nefit nm))%nat)) /\
  (forall e, Tmodel_func intmodel quad mu mA G cm_m joule_kev Msun_kg kpc_m data nm cl
               c rs normsersic = Err e -> e = IndexError).
Proof.
  unfold Tmodel_func. split; [split|].
  - intros [out Hrun].
    destruct (py_index (nefit nm) (refindex cl)) as [ne_ref|] eqn:E1; [|discriminate].
    destruct (py_index (map tspec data) (refindex cl)) as [t_ref|] eqn:E2; [|discriminate].
    destruct (py_index (map radius data) (refindex cl)) as [r_ref|] eqn:E3; [|discriminate].
    cbn [bind] in Hrun.
    apply py_index_ok_range in E1. apply py_index_ok_range in E2.
    rewrite length_map in E2. split; [exact E2|].
    destruct (Nat.le_gt_cases (List.length data) (List.length (nefit nm))) as [|Hlt];
      [assumption|exfalso].
    pose proof (Tmodel_loop_inv intmodel quad mu mA G cm_m joule_kev Msun_kg kpc_m data nm cl
                  c rs normsersic ne_ref t_ref r_ref _ [] [] out Hrun) as Hinv.
    assert (Hin : In (Z.of_nat (List.length data) - 1) (map Z.of_nat (seq 0 (List.length data)))).
    { apply in_map_iff. exists (List.length data - 1)%nat. split; [lia|]. apply in_seq. lia. }
    pose proof (proj1 (Forall_forall _ _) Hinv _ Hin) as Hin'. simpl in Hin'.
    destruct (Z.eq_dec (Z.of_nat (List.length data) - 1) (refindex cl)) as [Eq|Neq].
    + lia.
    + destruct (Hin' Neq) as [v Hv]. apply py_index_ok_range in Hv. lia.
  - intros [Href Hne].
    destruct (py_index_defined (nefit nm) (refindex cl)) as [ne_ref Hne_ref]; [lia|].
    destruct (py_index_defined (map tspec data) (refindex cl)) as [t_ref Ht_ref];
      [rewrite length_map; lia|].
    destruct (py_index_defined (map radius data) (refindex cl)) as [r_ref Hr_ref];
      [rewrite length_map; lia|].
    rewrite Hne_ref, Ht_ref, Hr_ref. cbn [bind].
    assert (Hf : Forall (fun rr => 0 <= rr < Z.of_nat (List.length data) /\
                                   rr < Z.of_nat (List.length (nefit nm)))
                   (map Z.of_nat (seq 0 (List.length data)))).
    { eapply Forall_impl; [|apply seq_range]. simpl. intros a Ha; lia. }
    destruct (Tmodel_loop_spec intmodel quad mu mA G cm_m joule_kev Msun_kg kpc_m data nm cl
                c rs normsersic ne_ref t_ref r_ref _ Hf [] []) as (outs & Hl & _ & _).
    rewrite Hl. eauto.
  - intros e Hrun.
    destruct (py_index (nefit nm) (refindex cl)) eqn:E1; cbn [bind] in Hrun;
      [|injection Hrun as <-; exact (py_index_err _ _ _ E1)].
    destruct (py_index (map tspec data) (refindex cl)) eqn:E2; cbn [bind] in Hrun;
      [|injection Hrun as <-; exact (py_index_err _ _ _ E2)].
    destruct (py_index (map radius data) (refindex cl)) eqn:E3; cbn [bind] in Hrun;
      [|injection Hrun as <-; exact (py_index_err _ _ _ E3)].
    exact (Tmodel_loop_err intmodel quad mu mA G cm_m joule_kev Msun_kg kpc_m _ _ _ _ _ _ _ _ _ _
             _ _ _ Hrun).
Qed.

End TmodelExtras.

(** ** lnlike *)

Lemma np_binop_same {F} (f : F -> F -> F) (a b : list F) :
  List.length a = List.length b ->
  np_binop f a b = Ok (map (fun '(x, y) => f x y) (combine a b)).
Proof. intro E. unfold np_binop. rewrite E, Nat.eqb_refl. reflexivity. Qed.

Lemma Q_pow_two (x : Q) : Q_pow x (inject_Z 2) = (x * (x * 1))%Q.
Proof. reflexivity. Qed.

Lemma Qsq_nonneg (x : Q) : (0 <= x * (x * 1))%Q.
Proof. unfold Qle; simpl. nia. Qed.

Lemma Qsq_nonzero (v : Q) : ~ (v == 0)%Q -> ~ (v * (v * 1) == 0)%Q.
Proof.
  intros Hv Hsq. apply Qmult_integral in Hsq as [Hsq|Hsq]; [exact (Hv Hsq)|].
  apply Hv. rewrite <- Hsq. ring.
Qed.

Lemma sq_div_zero (d v : Q) :
  ~ (v == 0)%Q -> ((d * (d * 1)) / (v * (v * 1)) == 0 <-> d == 0)%Q.
Proof.
  intros Hv. pose proof (Qsq_nonzero v Hv) as Hw. split; intro Hd.
  - assert (Hs : (d * (d * 1) == (d * (d * 1)) / (v * (v * 1)) * (v * (v * 1)))%Q)
      by (field; exact Hv).
    rewrite Hd in Hs. setoid_replace (0 * (v * (v * 1)))%Q with 0%Q in Hs by ring.
    apply Qmult_integral in Hs as [Hs|Hs]; [exact Hs|].
    rewrite <- Hs. ring.
  - rewrite Hd. unfold Qdiv. ring.
Qed.

Lemma Qsum_nonneg (l : list Q) :
  Forall (fun t => 0 <= t)%Q l ->
  (0 <= Qsum l)%Q /\ (Qsum l == 0 <-> Forall (fun t => t == 0)%Q l)%Q.
Proof.
  induction 1 as [|t l Ht Hl [IH1 IH2]]; simpl.
  - split; [apply Qle_refl|]. split; [constructor|reflexivity].
  - split; [lra|]. rewrite Forall_cons_iff. split.
    + intro E. assert (Et : (t == 0)%Q) by lra.
      split; [exact Et|]. apply IH2. lra.
    + intros [Et El]. apply IH2 in El. lra.
Qed.

Lemma Qsum_combine_add (a b : list Q) :
  List.length a = List.length b ->
  (Qsum (map (fun '(x, y) => x + y) (combine a b)) == Qsum a + Qsum b)%Q.
Proof.
  revert b. induction a as [|x a IH]; intros [|y b] E; simpl in *; try lia.
  - reflexivity.
  - rewrite IH by lia. ring.
Qed.

(** The residual terms [((y - model)**2.)/(yerr**2.)] in exact arithmetic. *)
Lemma chi_terms (m y e : list Q) :
  List.length y = List.length m -> List.length e = List.length m ->
  Forall (fun v => ~ (v == 0)%Q) e ->
  let chi := map (fun '(a, b) => Qdiv a b)
               (combine (map (fun d => Q_pow d (inject_Z 2))
                           (map (fun '(a, b) => Qminus a b) (combine y m)))
                        (map (fun v => Q_pow v (inject_Z 2)) e)) in
  Forall (fun t => 0 <= t)%Q chi /\
  (Forall (fun t => t == 0)%Q chi <-> Forall2 Qeq m y) /\
  List.length chi = List.length m.
Proof.
  revert y e. induction m as [|x m IH]; intros [|a y] [|v e] Hy He Hnz; simpl in *;
    try lia.
  - split; [constructor|]. split; [|reflexivity]. split; constructor.
  - inversion Hnz as [|? ? Hv Hnz']; subst.
    destruct (IH y e ltac:(lia) ltac:(lia) Hnz') as (Hnn & Hiff & Hlen).
    rewrite !Q_pow_two.
    split; [|split; [|simpl; lia]].
    + constructor; [|exact Hnn].
      apply Qmult_le_0_compat; [apply Qsq_nonneg|].
      apply Qinv_le_0_compat, Qsq_nonneg.
    + rewrite Forall_cons_iff, sq_div_zero by exact Hv. rewrite Hiff.
      split.
      * intros [Hd Hr]. constructor; [lra | exact Hr].
      * intro HF. inversion HF; subst. split; [lra | assumption].
Qed.

Section LnlikeQ.
Variable intmodel : nemodel Q -> Q -> Q -> Q -> Q -> clustermeta Q -> Q.
Variable quad : (Q -> Q) -> Q -> Q -> Q.
Variables (mu mA G cm_m joule_kev Msun_kg kpc_m : Q).
Variable np_log : Q -> Q.

(** Extra.  In exact arithmetic, with [np.sum] the exact sum: whenever
    [theta] unpacks, [Tmodel_func] succeeds, [y] and [yerr] have one value
    per model temperature and no [yerr] is 0, [lnlike] returns a value at
    most the Gaussian normalisation term [-0.5*sum(log(2*pi*yerr**2))],
    reached exactly when the model temperature equals [y] at every bin. *)
Theorem lnlike_le_perfect_fit (theta y yerr : list Q) (data : list (tspec_row Q))
    (nm : nemodel Q) (cl : clustermeta Q) (c rs normsersic : Q)
    (model : list Q) (calls : list (Z * Q * Q))
    (Hth : unpack_theta cl theta = Ok (c, rs, normsersic))
    (Ht : Tmodel_func intmodel quad mu mA G cm_m joule_kev Msun_kg kpc_m data nm cl
            c rs normsersic = Ok (model, calls))
    (Hy : List.length y = List.length model) (He : List.length yerr = List.length model)
    (Hnz : Forall (fun v => ~ (v == 0)%Q) yerr) :
  exists v,
    lnlike intmodel quad mu mA G cm_m joule_kev Msun_kg kpc_m np_log Qsum
      theta y yerr data nm cl = Ok v /\
    (v <= fmul (fdiv (float_of_int (-1)) (float_of_int 2))
            (Qsum (map np_log (map (fmul (fmul (float_of_int 2) np_pi))
                                 (map (fun e => fpow e (float_of_int 2)) yerr)))))%Q /\
    (v == fmul (fdiv (float_of_int (-1)) (float_of_int 2))
            (Qsum (map np_log (map (fmul (fmul (float_of_int 2) np_pi))
                                 (map (fun e => fpow e (float_of_int 2)) yerr))))
     <-> Forall2 Qeq model y)%Q.
Proof.
  unfold lnlike. rewrite Hth. cbn [bind]. rewrite Ht. cbn [bind fst].
  rewrite np_binop_same by exact Hy. cbn [bind].
  rewrite np_binop_same by (rewrite !length_map, length_combine; lia). cbn [bind].
  rewrite np_binop_same by (rewrite ?length_map, ?length_combine, ?length_map, ?length_combine; lia).
  cbn [bind]. eexists. split; [reflexivity|].
  change (@fsub Q Q_num) with Qminus. change (@fdiv Q Q_num) with Qdiv.
  change (@fpow Q Q_num) with Q_pow. change (@float_of_int Q Q_num) with inject_Z.
  change (@fadd Q Q_num) with Qplus. change (@fmul Q Q_num) with Qmult.
  destruct (chi_terms model y yerr Hy He Hnz) as (Hnn & Hiff & Hlen).
  set (chi := map (fun '(a, b) => Qdiv a b) _) in *.
  set (L := map np_log _).
  assert (HL : List.length chi = List.length L)
    by (unfold L; rewrite Hlen, !length_map; lia).
  rewrite (Qsum_combine_add chi L HL).
  destruct (Qsum_nonneg chi Hnn) as [Hs Hz].
  assert (Hh : (inject_Z (-1) / inject_Z 2 == - (1 # 2))%Q) by reflexivity.
  rewrite Hh. rewrite <- Hiff, <- Hz.
  split; [lra|]. split; intro E; lra.
Qed.

End LnlikeQ.

Section LnlikeArity.
Context {F : Type} `{PyFloat F}.
Variable intmodel : nemodel F -> F -> F -> F -> F -> clustermeta F -> F.
Variable quad : (F -> F) -> F -> F -> F.
Variables (mu mA G cm_m joule_kev Msun_kg kpc_m : F).
Variable np_log : F -> F.
Variable np_sum : list F -> F.

(** Extra.  [lnlike] unpacks [theta] by [incl_mstar], not by its length:
    with [incl_mstar = 1] a [theta] of length other than 3, and with
    [incl_mstar = 0] one of length other than 2, raises [ValueError]; any
    other [incl_mstar] raises [NameError]; in each case before the model
    temperature is computed. *)
Theorem lnlike_theta_arity (theta y yerr : list F) (data : list (tspec_row F))
    (nm : nemodel F) (cl : clustermeta F) :
  (incl_mstar cl = 1 -> List.length theta <> 3%nat ->
   lnlike intmodel quad mu mA G cm_m joule_kev Msun_kg kpc_m np_log np_sum
     theta y yerr data nm cl = Err ValueError) /\
  (incl_mstar cl = 0 -> List.length theta <> 2%nat ->
   lnlike intmodel quad mu mA G cm_m joule_kev Msun_kg kpc_m np_log np_sum
     theta y yerr data nm cl = Err ValueError) /\
  (incl_mstar cl <> 1 -> incl_mstar cl <> 0 ->
   lnlike intmodel quad mu mA G cm_m joule_kev Msun_kg kpc_m np_log np_sum
     theta y yerr data nm cl = Err NameError).
Proof.
  unfold lnlike, unpack_theta.
  split; [|split]; intros E1 E2.
  - rewrite E1. simpl.
    destruct theta as [|a [|b [|d [|x r]]]]; simpl in E2; try lia; reflexivity.
  - rewrite E1. simpl.
    destruct theta as [|a [|b [|x r]]]; simpl in E2; try lia; reflexivity.
  - rewrite (proj2 (Z.eqb_neq _ _) E1), (proj2 (Z.eqb_neq _ _) E2). reflexivity.
Qed.

End LnlikeArity.

Lemma lnlike_le_perfect_fit_witness :
  exists v,
    lnlike Inputs.intmodel_q0 Inputs.quad_q0 1%Q 1%Q 1%Q 1%Q 1%Q 1%Q 1%Q (fun x => x) Qsum
      [1%Q; 1%Q] [2%Q] [(1 # 2)%Q] Inputs.tspec_q Inputs.nm_q1 Inputs.cl_q0 = Ok v /\
    (v <= fmul (fdiv (float_of_int (-1)) (float_of_int 2))
            (Qsum (map (fun x => x) (map (fmul (fmul (float_of_int 2) np_pi))
                                 (map (fun e => fpow e (float_of_int 2)) [(1 # 2)%Q])))))%Q /\
    (v == fmul (fdiv (float_of_int (-1)) (float_of_int 2))
            (Qsum (map (fun x => x) (map (fmul (fmul (float_of_int 2) np_pi))
                                 (map (fun e => fpow e (float_of_int 2)) [(1 # 2)%Q]))))
     <-> Forall2 Qeq [2%Q] [2%Q])%Q.
Proof.
  apply (lnlike_le_perfect_fit Inputs.intmodel_q0 Inputs.quad_q0 1%Q 1%Q 1%Q 1%Q 1%Q 1%Q 1%Q
           (fun x => x) [1%Q; 1%Q] [2%Q] [(1 # 2)%Q] Inputs.tspec_q Inputs.nm_q1
           Inputs.cl_q0 1%Q 1%Q 0%Q [2%Q] []).
  - reflexivity.
  - vm_compute. reflexivity.
  - reflexivity.
  - reflexivity.
  - constructor; [vm_compute; discriminate | constructor].
Defined.

Lemma lnlike_theta_arity_witness :
  lnlike Inputs.intmodel_r Inputs.quad_mid 1%float 1%float 1%float 1%float 1%float
    1%float 1%float (fun x => x) (fun _ => 0%float) [1%float; 2%float]
    [5%float] [0.5%float] Inputs.tspec_t Inputs.nm_t Inputs.cl0 = Err ValueError.
Proof.
  apply (proj1 (lnlike_theta_arity Inputs.intmodel_r Inputs.quad_mid 1%float
           1%float 1%float 1%float 1%float 1%float 1%float (fun x => x) (fun _ => 0%float)
           [1%float; 2%float] [5%float] [0.5%float] Inputs.tspec_t Inputs.nm_t
           Inputs.cl0)).
  - reflexivity.
  - simpl. lia.
Defined.

Lemma Tmodel_func_copies_reference_witness :
  exists tfit_arr calls,
    Tmodel_func Inputs.intmodel_r Inputs.quad_mid 1%float 1%float 1%float 1%float
      1%float 1%float 1%float Inputs.tspec_t Inputs.nm_t Inputs.cl_ref0
      5%float 100%float 0%float = Ok (tfit_arr, calls) /\
    List.length tfit_arr = List.length Inputs.tspec_t /\
    py_index tfit_arr (refindex Inputs.cl_ref0)
      = py_index (map tspec Inputs.tspec_t) (refindex Inputs.cl_ref0) /\
    List.length calls = (List.length Inputs.tspec_t - 1)%nat /\
    Forall (fun '(rr, lo, hi) =>
              rr <> refindex Inputs.cl_ref0 /\
              py_index (map radius Inputs.tspec_t) (refindex Inputs.cl_ref0) = Ok lo /\
              py_index (map radius Inputs.tspec_t) rr = Ok hi) calls.
Proof.
  apply (Tmodel_func_copies_reference Inputs.intmodel_r Inputs.quad_mid 1%float 1%float
           1%float 1%float 1%float 1%float 1%float Inputs.tspec_t Inputs.nm_t
           Inputs.cl_ref0 5%float 100%float 0%float).
  - simpl. lia.
  - simpl. lia.
Defined.

Lemma Tmodel_func_negative_refindex_witness :
  exists tfit_arr calls radius_ref,
    Tmodel_func Inputs.intmodel_r Inputs.quad_mid 1%float 1%float 1%float 1%float
      1%float 1%float 1%float Inputs.tspec_t Inputs.nm_t Inputs.cl0
      5%float 100%float 0%float = Ok (tfit_arr, calls) /\
    List.length tfit_arr = List.length Inputs.tspec_t /\
    py_index (map radius Inputs.tspec_t) (refindex Inputs.cl0) = Ok radius_ref /\
    map (fun '(rr, _, _) => rr) calls
      = map Z.of_nat (seq 0 (List.length Inputs.tspec_t)) /\
    Forall (fun '(rr, lo, hi) =>
              lo = radius_ref /\ py_index (map radius Inputs.tspec_t) rr = Ok hi) calls /\
    In (Z.of_nat (List.length Inputs.tspec_t) + refindex Inputs.cl0, radius_ref, radius_ref)
      calls.
Proof.
  apply (Tmodel_func_negative_refindex Inputs.intmodel_r Inputs.quad_mid 1%float 1%float
           1%float 1%float 1%float 1%float 1%float Inputs.tspec_t Inputs.nm_t
           Inputs.cl0 5%float 100%float 0%float).
  - simpl. lia.
  - simpl. lia.
Defined.

(** ** calc_rdelta_p: the exceptions it raises *)

Section CalcRdeltaErrors.
Variable nfw_mass_model : float -> float -> float -> float -> float.
Variable sersic_mass_model : float -> float -> clustermeta float -> float.
Variable mgas_intmodel : float -> nemodel float -> float.
Variable quad : (float -> float) -> float -> float -> float.
Variable calc_rhocrit : float -> float.
Variables (Msun overdensity : float).

Lemma calc_rdelta_p_err_seed (fuel : nat) (row : list float) (nm : nemodel float)
    (cl : clustermeta float) (e : exn) :
  calc_rdelta_p nfw_mass_model sersic_mass_model mgas_intmodel quad calc_rhocrit Msun
    overdensity fuel row nm cl = Some (Err e) <-> calc_rdelta_seed sersic_mass_model Msun row cl = Err e.
Proof.
  unfold calc_rdelta_p.
  destruct (calc_rdelta_seed sersic_mass_model Msun row cl) as [[[[c rs] md] rt]|e'].
  - destruct (search _ _ _ _ _ _) as [[[? ?] ?]|]; split; intro Hx; discriminate.
  - split; intro Hx; congruence.
Qed.

(** Extra.  [calc_rdelta_p] raises [IndexError] when [row] has fewer than
    2 values, or exactly 2 with [count_mstar = 1] ([row[2]]); [NameError]
    when [count_mstar] is neither 0 nor 1 ([mass_dev] never bound).
    Otherwise the only exception left is [int(c*rs)]'s: [ValueError]
    exactly when the IEEE product [c*rs] is NaN and [OverflowError] exactly
    when it is infinite (an overflowing product of finite values too). *)
Theorem calc_rdelta_p_exceptions (fuel : nat) (row : list float) (nm : nemodel float)
    (cl : clustermeta float) :
  let run := calc_rdelta_p nfw_mass_model sersic_mass_model mgas_intmodel quad
               calc_rhocrit Msun overdensity fuel row nm cl in
  ((List.length row < 2)%nat -> run = Some (Err IndexError)) /\
  (List.length row = 2%nat -> count_mstar cl = 1 -> run = Some (Err IndexError)) /\
  ((2 <= List.length row)%nat -> count_mstar cl <> 0 -> count_mstar cl <> 1 ->
   run = Some (Err NameError)) /\
  ((2 <= List.length row)%nat ->
   count_mstar cl = 0 \/ (count_mstar cl = 1 /\ (3 <= List.length row)%nat) ->
   let p := (nth 0 row 0 * nth 1 row 0)%float in
   (run = Some (Err ValueError) <-> Prim2SF p = S754_nan) /\
   (run = Some (Err OverflowError) <-> exists s, Prim2SF p = S754_infinity s) /\
   (forall e, run = Some (Err e) -> e = ValueError \/ e = OverflowError)).
Proof.
  intro run. unfold run. setoid_rewrite calc_rdelta_p_err_seed.
  unfold calc_rdelta_seed.
  change (@int_of_float float float_num) with float_int.
  split; [|split; [|split]].
  - intro Hl. destruct row as [|a [|b r]]; simpl in Hl; [reflexivity|reflexivity|lia].
  - intros Hl Hc. destruct row as [|a [|b [|d r]]]; simpl in Hl; try lia.
    simpl. unfold mass_dev_fn. rewrite Hc. reflexivity.
  - intros Hl H0 H1. destruct row as [|a [|b r]]; simpl in Hl; try lia.
    simpl. unfold mass_dev_fn.
    rewrite (proj2 (Z.eqb_neq _ _) H1), (proj2 (Z.eqb_neq _ _) H0). reflexivity.
  - intros Hl Hc; try intro p. destruct row as [|a [|b r]]; simpl in Hl; try lia.
    assert (Hmd : exists md, mass_dev_fn sersic_mass_model Msun (a :: b :: r) cl = Ok md).
    { unfold mass_dev_fn. destruct Hc as [Hc|[Hc Hr]]; rewrite Hc; simpl.
      - eexists; reflexivity.
      - destruct r as [|d r]; simpl in Hr; [lia|]. eexists; reflexivity. }
    destruct Hmd as [md Hmd].
    simpl. rewrite Hmd. simpl. try unfold p. simpl nth.
    unfold float_int. destruct (Prim2SF (a * b)%float) as [s|s| |s m e0];
      simpl; repeat split; intros;
      repeat match goal with
             | H : exists _, _ |- _ => destruct H
             | H : Err _ = Err _ |- _ => injection H as H
             end;
      subst; try discriminate;
      first [reflexivity | eexists; reflexivity | left; reflexivity | right; reflexivity].
Qed.

End CalcRdeltaErrors.

Lemma calc_rdelta_p_exceptions_witness :
  calc_rdelta_p Inputs.nfw_const Inputs.sersic0 Inputs.mgas0 Inputs.quad_mid Inputs.rho1
    1%float 500%float 10 [0x1p600%float; 0x1p600%float] Inputs.nm0 Inputs.cl0
  = Some (Err OverflowError).
Proof.
  destruct (calc_rdelta_p_exceptions Inputs.nfw_const Inputs.sersic0 Inputs.mgas0
              Inputs.quad_mid Inputs.rho1 1%float 500%float 10
              [0x1p600%float; 0x1p600%float] Inputs.nm0 Inputs.cl0) as (_ & _ & _ & H4).
  apply (proj2 (proj1 (proj2 (H4 ltac:(simpl; lia) ltac:(left; reflexivity))))).
  exists false. vm_compute. reflexivity.
Defined.

(** ** calc_rdelta_p: the [count_mstar] branches *)

Lemma search_invariant {F} `{PyFloat F} (P : @evaluation F -> Prop) (overdensity : F)
    (eval : F -> @evaluation F) (fuel : nat) :
  (forall x, P (eval x)) ->
  forall rd ev tr rd' ev' tr',
  search overdensity eval fuel rd ev tr = Some (rd', ev', tr') ->
  P ev -> Forall P tr -> P ev' /\ Forall P tr'.
Proof.
  intros Hev. induction fuel as [|fuel IH]; intros rd ev tr rd' ev' tr' Hs Hp Htr;
    simpl in Hs; destruct (fgt (ev_ratio ev) overdensity).
  - discriminate.
  - injection Hs as <- <- <-. auto.
  - apply (IH _ _ _ _ _ _ Hs); [apply Hev | apply Forall_app; auto].
  - injection Hs as <- <- <-. auto.
Qed.

Lemma float_zero_div_pos (x : float) : PrimFloat.ltb 0 x = true -> (0 / x)%float = 0%float.
Proof.
  intro Hx. apply FloatAxioms.Prim2SF_inj. rewrite FloatAxioms.div_spec.
  rewrite FloatAxioms.ltb_spec in Hx.
  change (Prim2SF 0%float) with (S754_zero false) in *.
  destruct (Prim2SF x) as [[]|[]| |[] m e]; simpl in Hx; try discriminate; reflexivity.
Qed.

Section CalcRdeltaBranches.
Context {F : Type} `{PyFloat F}.
Variable nfw_mass_model : F -> F -> F -> F -> F.
Variable sersic_mass_model : F -> F -> clustermeta F -> F.
Variable mgas_intmodel : F -> nemodel F -> F.
Variable quad : (F -> F) -> F -> F -> F.
Variable calc_rhocrit : F -> F.
Variables (Msun overdensity : F).

(** Extra.  [calc_rdelta_p] reads only [row[0]], [row[1]] and, when
    [count_mstar = 1], [row[2]]: further columns of a sample row (and,
    when [count_mstar = 0], its third one) change nothing. *)
Theorem calc_rdelta_p_row_prefix (fuel : nat) (row : list F) (nm : nemodel F)
    (cl : clustermeta F) :
  (count_mstar cl = 0 ->
   calc_rdelta_p nfw_mass_model sersic_mass_model mgas_intmodel quad calc_rhocrit Msun
     overdensity fuel row nm cl
   = calc_rdelta_p nfw_mass_model sersic_mass_model mgas_intmodel quad calc_rhocrit Msun
       overdensity fuel (firstn 2 row) nm cl) /\
  (count_mstar cl = 1 ->
   calc_rdelta_p nfw_mass_model sersic_mass_model mgas_intmodel quad calc_rhocrit Msun
     overdensity fuel row nm cl
   = calc_rdelta_p nfw_mass_model sersic_mass_model mgas_intmodel quad calc_rhocrit Msun
       overdensity fuel (firstn 3 row) nm cl).
Proof.
  unfold calc_rdelta_p, calc_rdelta_seed, mass_dev_fn.
  split; intro Hc; rewrite Hc; simpl;
    destruct row as [|a [|b [|n r]]]; reflexivity.
Qed.

End CalcRdeltaBranches.

Section NoStars.
Variable nfw_mass_model : float -> float -> float -> float -> float.
Variable sersic_mass_model : float -> float -> clustermeta float -> float.
Variable mgas_intmodel : float -> nemodel float -> float.
Variable quad : (float -> float) -> float -> float -> float.
Variable calc_rhocrit : float -> float.
Variables (Msun overdensity : float).

(** Extra.  With [count_mstar = 0] and a positive [uconv.Msun], the
    stellar mass is 0 at every radius the search evaluates, and the
    returned [mstars] is exactly 0. *)
Theorem calc_rdelta_p_no_stars (fuel : nat) (row : list float) (nm : nemodel float)
    (cl : clustermeta float) out trace
    (Hc : count_mstar cl = 0) (HM : PrimFloat.ltb 0 Msun = true)
    (Hrun : calc_rdelta_p nfw_mass_model sersic_mass_model mgas_intmodel quad
              calc_rhocrit Msun overdensity fuel row nm cl = Some (Ok (out, trace))) :
  Forall (fun e => ev_mass_dev e = 0%float) trace /\
  exists rdelta mdelta mdm mgas, out = (rdelta, mdelta, mdm, 0%float, mgas).
Proof.
  unfold calc_rdelta_p in Hrun.
  destruct (calc_rdelta_seed sersic_mass_model Msun row cl)
    as [[[[c rs] md] rd0]|e] eqn:Hseed; [|discriminate].
  apply calc_rdelta_seed_ok in Hseed as (_ & _ & Hmd & _).
  unfold mass_dev_fn in Hmd. rewrite Hc in Hmd. simpl in Hmd.
  injection Hmd as Hmd.
  assert (Hz : forall r, md r = 0%float) by (intro r; rewrite <- Hmd; reflexivity).
  destruct (search _ _ _ _ _ _) as [[[rd ev] tr]|] eqn:Hs; [|discriminate].
  injection Hrun as <- <-.
  edestruct (search_invariant (fun e => ev_mass_dev e = 0%float) overdensity
              (evaluate nfw_mass_model mgas_intmodel quad calc_rhocrit Msun nm cl c rs md)
              fuel) as [Hev Htr]; [| exact Hs | | |].
  { intro x. exact (Hz x). }
  { exact (Hz (fmul c rs)). }
  { constructor; [exact (Hz (fmul c rs)) | constructor]. }
  split; [exact Htr|].
  do 4 eexists. simpl. rewrite Hev, (float_zero_div_pos Msun HM). reflexivity.
Qed.

End NoStars.

Lemma calc_rdelta_p_no_stars_witness :
  exists out trace,
    calc_rdelta_p Inputs.nfw_const Inputs.sersic0 Inputs.mgas0 Inputs.quad_mid
      Inputs.rho1 1%float 500%float 5 [2.5%float; 1%float] Inputs.nm0 Inputs.cl0
    = Some (Ok (out, trace)) /\
    Forall (fun e => ev_mass_dev e = 0%float) trace /\
    exists rdelta mdelta mdm mgas, out = (rdelta, mdelta, mdm, 0%float, mgas).
Proof.
  destruct (calc_rdelta_p Inputs.nfw_const Inputs.sersic0 Inputs.mgas0 Inputs.quad_mid
      Inputs.rho1 1%float 500%float 5 [2.5%float; 1%float] Inputs.nm0 Inputs.cl0)
    as [[[out trace]|e]|] eqn:E; try (vm_compute in E; discriminate).
  exists out, trace; split; [reflexivity |].
  apply (calc_rdelta_p_no_stars Inputs.nfw_const Inputs.sersic0 Inputs.mgas0
           Inputs.quad_mid Inputs.rho1 1%float 500%float 5 [2.5%float; 1%float]
           Inputs.nm0 Inputs.cl0 out trace).
  - reflexivity.
  - vm_compute. reflexivity.
  - exact E.
Defined.

Lemma calc_rdelta_p_row_prefix_witness :
  calc_rdelta_p Inputs.nfw_const Inputs.sersic0 Inputs.mgas0 Inputs.quad_mid Inputs.rho1
    1%float 500%float 5 [2.5%float; 1%float; 7%float] Inputs.nm0 Inputs.cl0
  = calc_rdelta_p Inputs.nfw_const Inputs.sersic0 Inputs.mgas0 Inputs.quad_mid Inputs.rho1
      1%float 500%float 5 [2.5%float; 1%float] Inputs.nm0 Inputs.cl0.
Proof.
  apply (proj1 (calc_rdelta_p_row_prefix Inputs.nfw_const Inputs.sersic0 Inputs.mgas0
           Inputs.quad_mid Inputs.rho1 1%float 500%float 5 [2.5%float; 1%float; 7%float]
           Inputs.nm0 Inputs.cl0)).
  reflexivity.
Defined.

(** ** fit_mcmc: the burn-in slice *)

(** Extra.  [fit_mcmc] raises nothing whatever [Nburnin] is: the slice
    [chain[:, Nburnin:, :]] gives no samples when [Nburnin >= Nsteps], and
    for a negative [Nburnin] keeps the LAST [min(-Nburnin, Nsteps)] steps of
    each walker; every sample has [ndim] coordinates. *)
Theorem fit_mcmc_burnin_edges {F} (emcee_chain : Z -> Z -> Z -> list (list (list F)))
    (cl : clustermeta F) (Nwalkers Nsteps Nburnin : Z)
    (Hincl : incl_mstar cl = 1 \/ incl_mstar cl = 0)
    (Hwalkers : 0 <= Nwalkers) (Hsteps : 0 <= Nsteps)
    (Hshape : chain_shape (emcee_chain Nwalkers (if incl_mstar cl =? 1 then 3 else 2) Nsteps)
                Nwalkers Nsteps (if incl_mstar cl =? 1 then 3 else 2)) :
  exists samples,
    fit_mcmc emcee_chain cl Nwalkers Nsteps Nburnin
      = Ok (samples, emcee_chain Nwalkers (if incl_mstar cl =? 1 then 3 else 2) Nsteps) /\
    Forall (fun row => Z.of_nat (List.length row) = if incl_mstar cl =? 1 then 3 else 2)
      samples /\
    (Nsteps <= Nburnin -> samples = []) /\
    (Nburnin < 0 ->
     samples = List.concat (map (skipn (Z.to_nat (Nsteps - Z.min (- Nburnin) Nsteps)))
                 (emcee_chain Nwalkers (if incl_mstar cl =? 1 then 3 else 2) Nsteps)) /\
     Z.of_nat (List.length samples) = Nwalkers * Z.min (- Nburnin) Nsteps).
Proof.
  unfold fit_mcmc. rewrite (fit_mcmc_ndim_cases cl Hincl). cbn [bind].
  set (ndim := if incl_mstar cl =? 1 then 3 else 2) in *.
  set (chain := emcee_chain Nwalkers ndim Nsteps) in *.
  assert (Hndim : 0 <= ndim) by (unfold ndim; destruct (incl_mstar cl =? 1); lia).
  destruct Hshape as [Hlen Hw].
  set (j := if Nburnin <? 0 then Z.max 0 (Nsteps + Nburnin) else Z.min Nburnin Nsteps).
  assert (Hsl : map (fun walker => py_slice_from walker Nburnin) chain
                = map (skipn (Z.to_nat j)) chain).
  { apply map_ext_in. intros w Hin.
    destruct (proj1 (Forall_forall _ _) Hw w Hin) as [Hn _].
    unfold py_slice_from. rewrite Hn, Z2Nat.id by exact Hsteps. reflexivity. }
  rewrite Hsl.
  destruct (concat_skipn_shape chain (Z.to_nat Nsteps) (Z.to_nat j) (Z.to_nat ndim) Hw)
    as [Hl Hf].
  eexists. split; [reflexivity|]. split; [|split].
  - eapply Forall_impl; [|exact Hf]. simpl. intros v Hv. rewrite Hv. lia.
  - intro Hb. apply length_zero_iff_nil. rewrite Hl.
    unfold j. destruct (Z.ltb_spec Nburnin 0); [lia|].
    rewrite Z.min_r by lia. rewrite Nat.sub_diag. lia.
  - intro Hb. unfold j. destruct (Z.ltb_spec Nburnin 0); [|lia]. split.
    + do 3 f_equal. lia.
    + fold j. rewrite Hl, Nat2Z.inj_mul, Hlen, Z2Nat.id by lia. f_equal.
      unfold j. destruct (Z.ltb_spec Nburnin 0); lia.
Qed.

Lemma fit_mcmc_burnin_edges_witness :
  exists samples,
    fit_mcmc Inputs.chain_ex Inputs.cl0 2 3 (-1) = Ok (samples, Inputs.chain_ex 2 3 3) /\
    Forall (fun row => Z.of_nat (List.length row) = 3) samples /\
    (3 <= -1 -> samples = []) /\
    (-1 < 0 ->
     samples = List.concat (map (skipn (Z.to_nat (3 - Z.min (- -1) 3)))
                 (Inputs.chain_ex 2 3 3)) /\
     Z.of_nat (List.length samples) = 2 * Z.min (- -1) 3).
Proof.
  exact (fit_mcmc_burnin_edges Inputs.chain_ex Inputs.cl0 2 3 (-1)
           (or_introl eq_refl) ltac:(lia) ltac:(lia)
           ltac:(split; [reflexivity | vm_compute; repeat constructor])).
Defined.

(** ** samples_results: the exceptions it raises *)

Lemma summaries_length {F} `{PyFloat F} (percentile : list F -> Z -> F)
    (row : list F) (rest : list (list F)) :
  List.length (summaries percentile (row :: rest)) = List.length row.
Proof. unfold summaries, columns. rewrite !length_map, length_seq. reflexivity. Qed.

(** Extra.  For non-empty rectangular [samples] of width [k] and
    [samples_aux] of width [ka], [samples_results] raises [ValueError] when
    [k] is not 3 with [count_mstar = 1] or not 2 with [count_mstar = 0],
    and when [ka] is not 5; with [count_mstar] neither 0 nor 1 and
    [ka = 5] it raises [NameError] (the unbound [c_mcmc] is printed). *)
Theorem samples_results_exceptions {F} `{PyFloat F} (percentile : list F -> Z -> F)
    (samples samples_aux : list (list F)) (cluster : clustermeta F) (k ka : nat)
    (Hs : samples <> []) (Hsk : Forall (fun row => List.length row = k) samples)
    (Ha : samples_aux <> []) (Hak : Forall (fun row => List.length row = ka) samples_aux) :
  (count_mstar cluster = 1 -> k <> 3%nat ->
   samples_results percentile samples samples_aux cluster = Err ValueError) /\
  (count_mstar cluster = 0 -> k <> 2%nat ->
   samples_results percentile samples samples_aux cluster = Err ValueError) /\
  ((count_mstar cluster = 1 /\ k = 3%nat) \/ (count_mstar cluster = 0 /\ k = 2%nat) \/
   (count_mstar cluster <> 0 /\ count_mstar cluster <> 1) -> ka <> 5%nat ->
   samples_results percentile samples samples_aux cluster = Err ValueError) /\
  (count_mstar cluster <> 0 -> count_mstar cluster <> 1 -> ka = 5%nat ->
   samples_results percentile samples samples_aux cluster = Err NameError).
Proof.
  destruct samples as [|row rest]; [congruence|].
  destruct samples_aux as [|arow arest]; [congruence|].
  pose proof (Forall_inv Hsk) as Hrow. pose proof (Forall_inv Hak) as Harow.
  simpl in Hrow, Harow.
  pose proof (summaries_length percentile row rest) as L.
  pose proof (summaries_length percentile arow arest) as La.
  unfold samples_results.
  destruct (summaries percentile (row :: rest)) as [|s0 [|s1 [|s2 [|s3 l]]]];
  destruct (summaries percentile (arow :: arest)) as [|a0 [|a1 [|a2 [|a3 [|a4 [|a5 la]]]]]];
  simpl in L, La;
  refine (conj _ (conj _ (conj _ _))); intros;
  repeat match goal with
         | H : _ /\ _ |- _ => destruct H
         | H : _ \/ _ |- _ => destruct H
         end;
  repeat match goal with
         | E : count_mstar cluster = _ |- _ => rewrite E
         | E : count_mstar cluster <> 0 |- _ => rewrite (proj2 (Z.eqb_neq _ _) E); clear E
         | E : count_mstar cluster <> 1 |- _ => rewrite (proj2 (Z.eqb_neq _ _) E); clear E
         end;
  simpl; try reflexivity; lia.
Qed.

Lemma samples_results_exceptions_witness :
  samples_results Inputs.percentile_first [[4%float; 5%float; 6%float]]
    [[1%float; 2%float; 3%float; 4%float; 5%float]] Inputs.cl0 = Err ValueError.
Proof.
  apply (proj1 (proj2 (samples_results_exceptions Inputs.percentile_first
           [[4%float; 5%float; 6%float]] [[1%float; 2%float; 3%float; 4%float; 5%float]]
           Inputs.cl0 3 5 ltac:(discriminate) ltac:(repeat constructor)
           ltac:(discriminate) ltac:(repeat constructor)))).
  - reflexivity.
  - lia.
Defined.

(** ** fit_ml *)


(** ** calc_posterior_mcmc and the pipeline *)

Section PosteriorFacts.
Context {F : Type} `{PyFloat F}.
Variable nfw_mass_model : F -> F -> F -> F -> F.
Variable sersic_mass_model : F -> F -> clustermeta F -> F.
Variable mgas_intmodel : F -> nemodel F -> F.
Variable quad : (F -> F) -> F -> F -> F.
Variable calc_rhocrit : F -> F.
Variables (Msun overdensity : F).

Lemma calc_posterior_mcmc_ok (fuel : nat) (nm : nemodel F) (cl : clustermeta F) :
  forall samples aux,
  calc_posterior_mcmc nfw_mass_model sersic_mass_model mgas_intmodel quad calc_rhocrit
    Msun overdensity fuel samples nm cl = Some (Ok aux) <->
  Forall2 (aux_of nfw_mass_model sersic_mass_model mgas_intmodel quad calc_rhocrit Msun
                   overdensity fuel nm cl) samples aux.
Proof.
  induction samples as [|row rest IH]; intros aux; simpl.
  - split; intro Hx; [injection Hx as <-; constructor | inversion Hx; reflexivity].
  - destruct (calc_rdelta_p nfw_mass_model sersic_mass_model mgas_intmodel quad
                calc_rhocrit Msun overdensity fuel row nm cl) as [[[out tr]|e]|] eqn:E1.
    + destruct (calc_posterior_mcmc nfw_mass_model sersic_mass_model mgas_intmodel quad
                  calc_rhocrit Msun overdensity fuel rest nm cl) as [[aux'|e]|] eqn:E2.
      * split; intro Hx.
        -- injection Hx as <-. constructor; [exists out, tr; auto | apply IH; reflexivity].
        -- inversion Hx as [|? arow ? aux'' Hr Hrest]; subst.
           destruct Hr as (o & t & Ho & ->). rewrite E1 in Ho.
           injection Ho as -> ->. apply IH in Hrest.
           injection Hrest as ->. reflexivity.
      * split; intro Hx; [discriminate|].
        inversion Hx as [|? ? ? ? _ Hrest]; subst. apply IH in Hrest. congruence.
      * split; intro Hx; [discriminate|].
        inversion Hx as [|? ? ? ? _ Hrest]; subst. apply IH in Hrest. congruence.
    + split; intro Hx; [discriminate|].
      inversion Hx as [|? ? ? ? Hr _]; subst. destruct Hr as (o & t & Ho & _). congruence.
    + split; intro Hx; [discriminate|].
      inversion Hx as [|? ? ? ? Hr _]; subst. destruct Hr as (o & t & Ho & _). congruence.
Qed.

Lemma calc_posterior_mcmc_err (fuel : nat) (nm : nemodel F) (cl : clustermeta F) (e : exn) :
  forall samples,
  calc_posterior_mcmc nfw_mass_model sersic_mass_model mgas_intmodel quad calc_rhocrit
    Msun overdensity fuel samples nm cl = Some (Err e) ->
  exists pre row post,
    samples = pre ++ row :: post /\
    calc_rdelta_p nfw_mass_model sersic_mass_model mgas_intmodel quad calc_rhocrit Msun
      overdensity fuel row nm cl = Some (Err e) /\
    Forall (fun r => exists o, calc_rdelta_p nfw_mass_model sersic_mass_model mgas_intmodel
                                 quad calc_rhocrit Msun overdensity fuel r nm cl
                               = Some (Ok o)) pre.
Proof.
  induction samples as [|row rest IH]; simpl; intro Hx; [discriminate|].
  destruct (calc_rdelta_p nfw_mass_model sersic_mass_model mgas_intmodel quad
              calc_rhocrit Msun overdensity fuel row nm cl) as [[o|e']|] eqn:E1.
  - destruct o as [out tr].
    destruct (calc_posterior_mcmc nfw_mass_model sersic_mass_model mgas_intmodel quad
                calc_rhocrit Msun overdensity fuel rest nm cl) as [[aux'|e']|]; try discriminate.
    injection Hx as ->.
    destruct (IH eq_refl) as (pre & r & post & -> & Hr & Hpre).
    exists (row :: pre), r, post. split; [reflexivity|]. split; [exact Hr|].
    constructor; [eexists; exact E1 | exact Hpre].
  - injection Hx as ->. exists [], row, rest. auto.
  - discriminate.
Qed.

(** Extra.  [calc_posterior_mcmc] returns [samples_aux] exactly when it
    holds, in the order of [samples], one row
    [[rdelta, mdelta, mdm, mstars, mgas]] per sample built from that
    sample's [calc_rdelta_p] result; when it raises, the exception is that
    of the first failing sample, every earlier one having succeeded. *)
Theorem calc_posterior_mcmc_rows (fuel : nat) (samples : list (list F)) (nm : nemodel F)
    (cl : clustermeta F) :
  (forall aux,
   calc_posterior_mcmc nfw_mass_model sersic_mass_model mgas_intmodel quad calc_rhocrit
     Msun overdensity fuel samples nm cl = Some (Ok aux) <->
   Forall2 (fun row arow =>
              exists rdelta mdelta mdm mstars mgas trace,
                calc_rdelta_p nfw_mass_model sersic_mass_model mgas_intmodel quad
                  calc_rhocrit Msun overdensity fuel row nm cl
                = Some (Ok ((rdelta, mdelta, mdm, mstars, mgas), trace)) /\
                arow = [float_of_int rdelta; mdelta; mdm; mstars; mgas]) samples aux) /\
  (forall e,
   calc_posterior_mcmc nfw_mass_model sersic_mass_model mgas_intmodel quad calc_rhocrit
     Msun overdensity fuel samples nm cl = Some (Err e) ->
   exists pre row post,
    samples = pre ++ row :: post /\
    calc_rdelta_p nfw_mass_model sersic_mass_model mgas_intmodel quad calc_rhocrit Msun
      overdensity fuel row nm cl = Some (Err e) /\
    Forall (fun r => exists o, calc_rdelta_p nfw_mass_model sersic_mass_model mgas_intmodel
                                 quad calc_rhocrit Msun overdensity fuel r nm cl
                               = Some (Ok o)) pre).
Proof.
  split; [|intro e; exact (calc_posterior_mcmc_err fuel nm cl e samples)].
  intro aux. rewrite calc_posterior_mcmc_ok.
  split; apply Forall2_impl; intros row arow.
  - intros (out & tr & Ho & ->). destruct out as [[[[rd mt] mn] ms] mg].
    exists rd, mt, mn, ms, mg, tr. auto.
  - intros (rd & mt & mn & ms & mg & tr & Ho & ->). exists (rd, mt, mn, ms, mg), tr. auto.
Qed.


End PosteriorFacts.

Section Pipeline.
Context {F : Type} `{PyFloat F}.
Variable nfw_mass_model : F -> F -> F -> F -> F.
Variable sersic_mass_model : F -> F -> clustermeta F -> F.
Variable mgas_intmodel : F -> nemodel F -> F.
Variable quad : (F -> F) -> F -> F -> F.
Variable calc_rhocrit : F -> F.
Variables (Msun overdensity : F).
Variable emcee_chain : Z -> Z -> Z -> list (list (list F)).
Variable percentile : list F -> Z -> F.


End Pipeline.

